(** * google-documents: entity wrappers, factory and manager

    A shallow embedding of [google_documents/entities/file.py],
    [google_documents/entities/manager.py] and
    [google_documents/entities/sheet.py].

    Conventions of the embedding.
    - Attributes carry the types the class annotations declare
      ([id: str], [name: str], [index: int], [title: str], float colour
      channels); an attribute whose constructor default is [None] is an
      [option].
    - A Python exception is a value of [exn]; a call that may raise
      returns a [result].
    - The remote service is an oracle [server]; a request reaches it only
      through [execute], which also appends the request to the trace of
      executed requests.  Building a request is pure, as it is in
      googleapiclient. *)

From Stdlib Require Import ZArith String Ascii List.
From stdpp Require Import base option gmap strings list pretty.

Local Open Scope string_scope.
Local Open Scope Z_scope.

(** ** Exceptions *)

Inductive exn : Type :=
| AssertionError (msg : string)
| KeyError (key : string)
| AttributeError (msg : string)
| HttpError (status : Z)
| OtherError (msg : string).

Inductive result (A : Type) : Type :=
| Ok (a : A)
| Raise (e : exn).
Arguments Ok {A} a.
Arguments Raise {A} e.

Definition result_bind {A B} (r : result A) (k : A → result B) : result B :=
  match r with
  | Ok a => k a
  | Raise e => Raise e
  end.

(** [d[k]] on a dict with string keys. *)
Definition dict_getitem {V} (d : gmap string V) (k : string) : result V :=
  match d !! k with
  | Some v => Ok v
  | None => Raise (KeyError k)
  end.

(** ** Python formatting of the values the code interpolates *)

(** [f"{b}"] for a bool. *)
Definition format_bool (b : bool) : string :=
  if b then "True" else "False".

(** [f"{s}"] for a [str] attribute that may be [None]. *)
Definition format_opt_str (s : option string) : string :=
  match s with
  | Some s => s
  | None => "None"
  end.

(** Truthiness of a [str] attribute that may be [None]: [None] and the
    empty string are false. *)
Definition truthy_opt_str (s : option string) : bool :=
  match s with
  | Some (String _ _) => true
  | _ => false
  end.

(** [a or b] on such attributes. *)
Definition or_opt_str (a b : option string) : option string :=
  if truthy_opt_str a then a else b.

(** ** Drive file wrappers (file.py) *)

(** The four classes of the hierarchy
    GoogleDriveFile > GoogleDriveFolder,
    GoogleDriveFile > GoogleDriveDocument > GoogleDriveSpreadsheet. *)
Inductive file_class : Type :=
| ClsGoogleDriveFile
| ClsGoogleDriveFolder
| ClsGoogleDriveDocument
| ClsGoogleDriveSpreadsheet.

Global Instance file_class_eq_dec : EqDecision file_class.
Proof. solve_decision. Defined.

(** [cls.__name__] *)
Definition class_name (c : file_class) : string :=
  match c with
  | ClsGoogleDriveFile => "GoogleDriveFile"
  | ClsGoogleDriveFolder => "GoogleDriveFolder"
  | ClsGoogleDriveDocument => "GoogleDriveDocument"
  | ClsGoogleDriveSpreadsheet => "GoogleDriveSpreadsheet"
  end.

(** An instance: its class, and the attributes [__init__] sets.
    [set_item_value_input_option] is the class attribute of
    GoogleDriveSpreadsheet, "RAW" unless the instance overrides it. *)
Record GoogleDriveFile : Type := mkFile {
  file_cls : file_class;
  file_id : string;
  file_name : option string;
  file_mime_type : option string;
  file_set_item_value_input_option : string
}.

(** [cls(id, name, mime_type)], GoogleDriveFile.__init__ *)
Definition file_init (c : file_class) (id : string)
    (name mime_type : option string) : GoogleDriveFile :=
  {| file_cls := c; file_id := id; file_name := name;
     file_mime_type := mime_type;
     file_set_item_value_input_option := "RAW" |}.

(** A raw item is the JSON object of a Drive file resource.  The wrappers
    read its [id], [name] and [mimeType] members, which the Drive API
    types as strings; the embedding keeps the string-valued members. *)
Abbreviation item := (gmap string string).

(** GoogleDriveFile.from_item, a classmethod inherited by every class. *)
Definition GoogleDriveFile_from_item (c : file_class) (it : item)
    : result GoogleDriveFile :=
  result_bind (dict_getitem it "id") (λ id,
  Ok (file_init c id (it !! "name") (it !! "mimeType"))).

(** GoogleDriveFile.__eq__ *)
Definition GoogleDriveFile_eq (self other : GoogleDriveFile) : bool :=
  String.eqb (file_id self) (file_id other).

(** GoogleDriveFile.__repr__ *)
Definition GoogleDriveFile_repr (self : GoogleDriveFile) : string :=
  "<" +:+ class_name (file_cls self) +:+ ": " +:+ file_id self +:+ " - "
      +:+ format_opt_str (file_name self) +:+ ">".

(** [f"{obj}"]: GoogleDriveFolder defines [__str__], the other classes
    fall back to [__repr__]. *)
Definition format_file (self : GoogleDriveFile) : string :=
  match file_cls self with
  | ClsGoogleDriveFolder => format_opt_str (file_name self)
  | _ => GoogleDriveFile_repr self
  end.

(** ** The API client (googleapiclient) *)

(** Credentials of a service account, as oauth2client builds them from a
    key file and a list of scopes. *)
Record credentials : Type := mkCredentials {
  cred_key : string;
  cred_scopes : list string
}.

(** A client bound to one API, as [discovery.build] returns it. *)
Record service : Type := mkService {
  svc_resource_name : string;
  svc_version : string;
  svc_credentials : credentials
}.

(** A cell of a range, and the rows a range read or write carries. *)
Inductive cell : Type :=
| CellNone
| CellBool (b : bool)
| CellInt (z : Z)
| CellFloat (bits : Z)
| CellStr (s : string).

Abbreviation values := (list (list cell)).

(** The requests the wrappers build.  A constructor is what the chain
    [service.files().get(...)] and the like returns: a request object
    that has not been sent. *)
Inductive request : Type :=
| FilesGet (svc : service) (fileId : string)
| FilesList (svc : service) (q spaces fields : string)
| FilesCopy (svc : service) (fileId : string) (body_name : string)
| FilesDelete (svc : service) (fileId : string)
| FilesUpdate (svc : service) (fileId addParents fields : string)
| ValuesGet (svc : service) (spreadsheetId range : string)
| ValuesClear (svc : service) (spreadsheetId range body_range : string)
| ValuesUpdate (svc : service) (spreadsheetId range : string)
    (body_values : values) (valueInputOption : string)
| BatchUpdateDeleteSheet (svc : service) (spreadsheetId : string)
    (sheetId : option Z).

(** Response bodies.  The code reads the optional member [files] of a
    list response and the optional member [values] of a range; every
    other body is handed back to the caller as it is. *)
Record file_list : Type := mkFileList { fl_files : option (list item) }.
Record value_range : Type := mkValueRange { vr_values : option values }.
Inductive json_body : Type := JsonBody (text : string).

Definition response_of (r : request) : Type :=
  match r with
  | FilesGet _ _ => item
  | FilesList _ _ _ _ => file_list
  | FilesCopy _ _ _ => item
  | FilesDelete _ _ => json_body
  | FilesUpdate _ _ _ _ => json_body
  | ValuesGet _ _ _ => value_range
  | ValuesClear _ _ _ _ => json_body
  | ValuesUpdate _ _ _ _ _ => json_body
  | BatchUpdateDeleteSheet _ _ _ => json_body
  end.

(** ** Computations that talk to the remote service

    The state is the list of requests executed so far, oldest first.  An
    exception keeps the state reached when it was raised. *)
Abbreviation trace := (list request).

Definition M (A : Type) : Type := trace → result A * trace.

Definition ret {A} (a : A) : M A := λ tr, (Ok a, tr).

Definition raise {A} (e : exn) : M A := λ tr, (Raise e, tr).

Definition bind {A B} (m : M A) (k : A → M B) : M B := λ tr,
  match m tr with
  | (Ok a, tr') => k a tr'
  | (Raise e, tr') => (Raise e, tr')
  end.

(** A pure step that may raise. *)
Definition lift {A} (r : result A) : M A := λ tr, (r, tr).

Notation "'let!' x ':=' m 'in' k" := (bind m (λ x, k))
  (at level 10, x name, m at level 100, k at level 200,
   format "'let!'  x  ':='  m  'in' '//' k").

(** [try: body except HttpError: handler] *)
Definition except_HttpError {A} (body : M A) (handler : M A) : M A := λ tr,
  match body tr with
  | (Raise (HttpError _), tr') => handler tr'
  | outcome => outcome
  end.

(** [sep.join(parts)] *)
Fixpoint str_join (sep : string) (parts : list string) : string :=
  match parts with
  | [] => ""
  | [p] => p
  | p :: rest => p +:+ sep +:+ str_join sep rest
  end.

(** ** Keyword filters (manager.py) *)

(** The values a caller passes to [filter] by keyword: strings, bools,
    ints, [None] and file wrappers (the [folder] argument). *)
Inductive kwvalue : Type :=
| KwNone
| KwBool (b : bool)
| KwInt (z : Z)
| KwStr (s : string)
| KwFile (f : GoogleDriveFile).

(** [type(value).__name__], as it shows in an AttributeError. *)
Definition kwvalue_type_name (v : kwvalue) : string :=
  match v with
  | KwNone => "NoneType"
  | KwBool _ => "bool"
  | KwInt _ => "int"
  | KwStr _ => "str"
  | KwFile f => class_name (file_cls f)
  end.

(** [f"{value}"] *)
Definition format_value (v : kwvalue) : string :=
  match v with
  | KwNone => "None"
  | KwBool b => format_bool b
  | KwInt z => pretty z
  | KwStr s => s
  | KwFile f => format_file f
  end.

(** [type(value) == bool] *)
Definition is_bool (v : kwvalue) : bool :=
  match v with
  | KwBool _ => true
  | _ => false
  end.

(** [kwargs] is a dict in insertion order: a list of pairs. *)
Abbreviation kwargs := (list (string * kwvalue)).

(** [d[k] = v] on such a dict: an existing key keeps its place and takes
    the new value, a new key goes to the end. *)
Fixpoint dict_setitem (d : kwargs) (k : string) (v : kwvalue) : kwargs :=
  match d with
  | [] => [(k, v)]
  | (k', v') :: rest =>
      if String.eqb k' k then (k', v) :: rest
      else (k', v') :: dict_setitem rest k v
  end.

(** The pattern [[a-z]] *)
Definition is_lower (c : ascii) : bool :=
  let n := N_of_ascii c in ((97 <=? n) && (n <=? 122))%N.

(** [c.upper()] for a character the pattern [[a-z]] matched. *)
Definition upper (c : ascii) : ascii :=
  if is_lower c then ascii_of_N (N_of_ascii c - 32) else c.

(** [re.sub('_[a-z]', lambda p: p.group(0)[-1].upper(), param)]: the
    scan goes left to right; an underscore followed by a lower-case
    letter is replaced by the upper-case letter and the scan resumes
    after the letter; any other character is copied. *)
Fixpoint param_camel_case (param : string) : string :=
  match param with
  | EmptyString => EmptyString
  | String c rest =>
      match rest with
      | String d rest' =>
          if Ascii.eqb c "_" && is_lower d
          then String (upper d) (param_camel_case rest')
          else String c (param_camel_case rest)
      | EmptyString => String c EmptyString
      end
  end.

(** GoogleDriveDocumentManager._get_filter_folder_query: reading
    [folder.id] raises on a value that has no such attribute. *)
Definition _get_filter_folder_query (folder : kwvalue) : result string :=
  match folder with
  | KwFile f => Ok ("'" +:+ file_id f +:+ "' in parents")
  | v => Raise (AttributeError
           ("'" +:+ kwvalue_type_name v +:+ "' object has no attribute 'id'"))
  end.

(** One turn of the loop of [filter]: the clause appended for a pair. *)
Definition param_query (param : string) (value : kwvalue) : result string :=
  let param_camel_case := param_camel_case param in
  if String.eqb param "folder" then _get_filter_folder_query value
  else if is_bool value
  then Ok (param_camel_case +:+ " = " +:+ format_value value)
  else Ok (param_camel_case +:+ " contains '" +:+ format_value value +:+ "'").

(** The loop [for param, value in kwargs.items(): params_queries.append(..)] *)
Fixpoint params_queries_loop (kw : kwargs) (params_queries : list string)
    : result (list string) :=
  match kw with
  | [] => Ok params_queries
  | (param, value) :: rest =>
      result_bind (param_query param value) (λ clause,
      params_queries_loop rest (params_queries ++ [clause])%list)
  end.

(** ** Sheets (sheet.py) *)

(** A JSON number: an int, or a float given by its IEEE 754 bits.  The
    code stores and returns channels; it never computes with them. *)
Inductive pynum : Type :=
| NumInt (z : Z)
| NumFloat (bits : Z).

Record Color : Type := mkColor {
  red : pynum;
  green : pynum;
  blue : pynum
}.

(** Color.__init__, every channel defaulting to 0 *)
Definition Color_init (r g b : option pynum) : Color :=
  {| red := default (NumInt 0) r;
     green := default (NumInt 0) g;
     blue := default (NumInt 0) b |}.

(** Color.to_item *)
Definition Color_to_item (self : Color) : gmap string pynum :=
  <["red" := red self]>
    (<["blue" := blue self]> (<["green" := green self]> ∅)).

(** Modelled from the spec: Color.from_item.  Color takes it from its
    base class FromItemable, whose module is not part of the sources at
    hand.  The spec has Color "serializable to/from the API's
    representation", the representation being the item of [to_item]: the
    channels are read from the members [red], [green] and [blue], and a
    channel the item leaves out takes the default of [__init__]. *)
Definition Color_from_item (it : gmap string pynum) : Color :=
  Color_init (it !! "red") (it !! "green") (it !! "blue").

Record GridProperties : Type := mkGridProperties {
  row_count : Z;
  column_count : Z
}.

(** GridProperties.to_item *)
Definition GridProperties_to_item (self : GridProperties) : gmap string Z :=
  <["columnCount" := column_count self]>
    (<["rowCount" := row_count self]> ∅).

(** GridProperties.from_item *)
Definition GridProperties_from_item (it : gmap string Z)
    : result GridProperties :=
  result_bind (dict_getitem it "rowCount") (λ rows,
  result_bind (dict_getitem it "columnCount") (λ columns,
  Ok {| row_count := rows; column_count := columns |})).

(** A Sheet instance.  [sheet_spreadsheet] is the back-reference to the
    owning spreadsheet, [None] until [assign_spreadsheet]. *)
Record Sheet : Type := mkSheet {
  sheet_id : option Z;
  sheet_index : option Z;
  sheet_title : option string;
  sheet_tab_color : option Color;
  sheet_grid_properties : option GridProperties;
  sheet_spreadsheet : option GoogleDriveFile;
  sheet_set_item_value_input_option : string
}.

(** Sheet.__init__ *)
Definition Sheet_init (id index : option Z) (title : option string)
    (tab_color : option Color) (grid_properties : option GridProperties)
    : Sheet :=
  {| sheet_id := id; sheet_index := index; sheet_title := title;
     sheet_tab_color := tab_color; sheet_grid_properties := grid_properties;
     sheet_spreadsheet := None;
     sheet_set_item_value_input_option := "RAW" |}.

(** Sheet.assign_spreadsheet *)
Definition assign_spreadsheet (self : Sheet) (spreadsheet : GoogleDriveFile)
    : Sheet :=
  {| sheet_id := sheet_id self; sheet_index := sheet_index self;
     sheet_title := sheet_title self; sheet_tab_color := sheet_tab_color self;
     sheet_grid_properties := sheet_grid_properties self;
     sheet_spreadsheet := Some spreadsheet;
     sheet_set_item_value_input_option :=
       sheet_set_item_value_input_option self |}.

(** [self.spreadsheet = None], the last assignment of Sheet.delete *)
Definition unassign_spreadsheet (self : Sheet) : Sheet :=
  {| sheet_id := sheet_id self; sheet_index := sheet_index self;
     sheet_title := sheet_title self; sheet_tab_color := sheet_tab_color self;
     sheet_grid_properties := sheet_grid_properties self;
     sheet_spreadsheet := None;
     sheet_set_item_value_input_option :=
       sheet_set_item_value_input_option self |}.

(** Sheet._get_spreadsheet_range_name *)
Definition _get_spreadsheet_range_name (self : Sheet)
    (sheet_range_name : string) : string :=
  format_opt_str (sheet_title self) +:+ "!" +:+ sheet_range_name.

(** The message of the four assertions of Sheet. *)
Definition spreadsheet_unknown : exn :=
  AssertionError "Spreadsheet for the sheet is unknown.".

(** Sheet.__eq__.  A wrapper object is truthy, so each [assert] fails
    exactly on [None]. *)
Definition Sheet_eq (self other : Sheet) : result bool :=
  match sheet_spreadsheet self with
  | None => Raise spreadsheet_unknown
  | Some s1 =>
      match sheet_spreadsheet other with
      | None => Raise spreadsheet_unknown
      | Some s2 =>
          Ok (GoogleDriveFile_eq s1 s2
              && bool_decide (sheet_id self = sheet_id other))
      end
  end.

(** ** Managers (manager.py) *)

Inductive manager_class : Type :=
| ClsGoogleDriveDocumentManager
| ClsGoogleDriveSpreadsheetManager.

(** The class attributes [resource_name] and [version]. *)
Definition resource_name (c : manager_class) : string :=
  match c with
  | ClsGoogleDriveDocumentManager => "drive"
  | ClsGoogleDriveSpreadsheetManager => "sheets"
  end.

Definition version (c : manager_class) : Z :=
  match c with
  | ClsGoogleDriveDocumentManager => 3
  | ClsGoogleDriveSpreadsheetManager => 4
  end.

Record GoogleDriveDocumentManager : Type := mkManager {
  mgr_cls : manager_class;
  file_cls_of : file_class;
  custom_service_account_file : option string
}.

Definition SCOPES : list string := ["https://www.googleapis.com/auth/drive"].

Definition service_account_file_not_found : exn :=
  AssertionError
    ("Google Documents Service account file not found. "
     +:+ "You should specify it via google_service_account_file or "
     +:+ "in $GOOGLE_DOCUMENT_SERVICE_JSON "
     +:+ "environment variable.").

(** ** More of sheet.py: the item of a sheet *)

(** The [properties] object of a sheet resource, a dict with a fixed set
    of members.  A field is [None] when the dict has no such member and
    [Some v] when it has one; [v] is itself an option where the member
    may hold Python's [None], as the members [to_item] writes do. *)
Record sheet_properties : Type := mkSheetProperties {
  sp_sheetId : option (option Z);
  sp_index : option (option Z);
  sp_title : option (option string);
  sp_gridProperties : option (option (gmap string Z));
  sp_tabColor : option (option (gmap string pynum))
}.

(** The item of a sheet; [Sheet.from_item] reads its member
    [properties]. *)
Record sheet_item : Type := mkSheetItem {
  si_properties : option sheet_properties
}.

(** [d[k]] on a member of such a dict. *)
Definition member {V} (k : string) (m : option V) : result V :=
  match m with
  | Some v => Ok v
  | None => Raise (KeyError k)
  end.

(** [if d.get(k):] for a dict-valued member: a missing member, [None]
    and the empty dict are false; the result is the dict when the test
    passes. *)
Definition truthy_member {V} (m : option (option (gmap string V)))
    : option (gmap string V) :=
  match m with
  | Some (Some d) => if decide (size d = 0%nat) then None else Some d
  | _ => None
  end.

(** Sheet.to_item.  [x and x.to_item()] is [None] for [None] and the
    item for an object, an object being truthy. *)
Definition Sheet_to_item (self : Sheet) : sheet_properties :=
  {| sp_sheetId := Some (sheet_id self);
     sp_index := Some (sheet_index self);
     sp_title := Some (sheet_title self);
     sp_gridProperties :=
       Some (GridProperties_to_item <$> sheet_grid_properties self);
     sp_tabColor := Some (Color_to_item <$> sheet_tab_color self) |}.

(** ** More of manager.py *)

(** The exception of [using]. *)
Inductive value_error : Type := ValueError (msg : string).

(** ** More of file.py: folders *)

(** The requests of [parents] and [children]: [files().get] with a
    [fields] argument, and [files().list] with a query alone. *)
Inductive folder_request : Type :=
| FilesGetFields (svc : service) (fileId fields : string)
| FilesListQuery (svc : service) (q : string).

(** The body of a [files().get(fields='parents')]: the code reads its
    member [parents], a list of file ids. *)
Record parents_body : Type := mkParentsBody {
  pb_parents : option (list string)
}.

Definition folder_response_of (r : folder_request) : Type :=
  match r with
  | FilesGetFields _ _ _ => parents_body
  | FilesListQuery _ _ => file_list
  end.

(** The requests executed so far, of either kind, oldest first. *)
Inductive sent_request : Type :=
| SentRequest (r : request)
| SentFolderRequest (r : folder_request).

(** Computations over that trace; [M] is the same at [trace]. *)
Definition MF (A : Type) : Type :=
  list sent_request → result A * list sent_request.

Definition retF {A} (a : A) : MF A := λ tr, (Ok a, tr).

Definition bindF {A B} (m : MF A) (k : A → MF B) : MF B := λ tr,
  match m tr with
  | (Ok a, tr') => k a tr'
  | (Raise e, tr') => (Raise e, tr')
  end.

Definition liftF {A} (r : result A) : MF A := λ tr, (r, tr).

Notation "'let*' x ':=' m 'in' k" := (bindF m (λ x, k))
  (at level 10, x name, m at level 100, k at level 200,
   format "'let*'  x  ':='  m  'in' '//' k").

(** The double-quote character, code 34 *)
Definition dquote : string := String "034"%char EmptyString.

(** The loop [for parent in response["parents"]: yield GoogleDriveFolder(id=parent)],
    run to its end. *)
Definition parent_folders (parents : list string) : list GoogleDriveFile :=
  map (λ parent, file_init ClsGoogleDriveFolder parent None None) parents.

(** An underscore followed by a lower-case letter somewhere in a key:
    a match of the pattern [_[a-z]]. *)
Fixpoint has_match (s : string) : bool :=
  match s with
  | EmptyString => false
  | String c rest =>
      match rest with
      | String d _ => (Ascii.eqb c "_" && is_lower d) || has_match rest
      | EmptyString => false
      end
  end.

(** A computation that executes at most one request and leaves the
    requests executed before it in place. *)
Definition at_most_one_request {A} (m : M A) : Prop :=
  ∀ tr, (m tr).2 = tr ∨ ∃ r, (m tr).2 = (tr ++ [r])%list.

(** [service.files()] on the client of the API [api]: the Drive API has
    the collection [files]; the client of any other API, the Sheets API
    among them, has no such attribute. *)
Definition files (api : string) : result unit :=
  if String.eqb api "drive" then Ok tt
  else Raise (AttributeError "'Resource' object has no attribute 'files'").

(** An instance of GoogleDriveFolder: a wrapper whose class is
    GoogleDriveFolder.  [children] and [__contains__] are defined on this
    class alone. *)
Record GoogleDriveFolder : Type := mkFolder {
  folder_file :> GoogleDriveFile;
  folder_class : file_cls folder_file = ClsGoogleDriveFolder
}.

(** ** What the claims of the specification say, in its words *)

(** "each '_x' becomes 'X'": the camel-case form of a key, read left to
    right.  An underscore with a lower-case letter after it gives the
    upper-case letter; a character that does not start such a pair is
    kept. *)
Inductive camel_case : string → string → Prop :=
| camel_nil :
    camel_case EmptyString EmptyString
| camel_pair x s t :
    is_lower x = true →
    camel_case s t →
    camel_case (String "_" (String x s)) (String (upper x) t)
| camel_keep c s t :
    (∀ x s', c = "_"%char → s = String x s' → is_lower x = false) →
    camel_case s t →
    camel_case (String c s) (String c t).

(** The clause of the query for one keyword argument. *)
Inductive clause_of : string → kwvalue → string → Prop :=
| clause_folder folder :
    clause_of "folder" (KwFile folder) ("'" +:+ file_id folder +:+ "' in parents")
| clause_bool key b camel :
    key ≠ "folder" →
    camel_case key camel →
    clause_of key (KwBool b) (camel +:+ " = " +:+ format_bool b)
| clause_contains key value camel :
    key ≠ "folder" →
    is_bool value = false →
    camel_case key camel →
    clause_of key value (camel +:+ " contains '" +:+ format_value value +:+ "'").

(** ** A concrete environment, for the examples *)

Module Demo.
(** The MIME types Google Drive gives its own document kinds. *)
Definition MIME_TYPES (key : string) : string :=
  if String.eqb key "folder" then "application/vnd.google-apps.folder"
  else if String.eqb key "document" then "application/vnd.google-apps.document"
  else if String.eqb key "spreadsheet"
  then "application/vnd.google-apps.spreadsheet"
  else "application/octet-stream".

Definition from_json_keyfile_name (file : string) (scopes : list string)
    : result credentials :=
  Ok (mkCredentials file scopes).

Definition discovery_build (resource version : string) (creds : credentials)
    : result service :=
  Ok (mkService resource version creds).

Definition creds : credentials := mkCredentials "key.json" SCOPES.
Definition drive : service := mkService "drive" "v3" creds.
Definition sheets : service := mkService "sheets" "v4" creds.

Definition _api_service (_ : GoogleDriveFile) : result service := Ok drive.
Definition _sheets_api_service (_ : GoogleDriveFile) : result service :=
  Ok sheets.
Definition set_api_service (_ : GoogleDriveFile) (_ : service)
    : result unit := Ok tt.

Definition report : item :=
  <["mimeType" := "application/vnd.google-apps.document"]>
    (<["name" := "report"]> (<["id" := "doc-1"]> ∅)).

(** A service that knows one document and answers every request. *)
Definition server (_ : trace) (r : request) : result (response_of r) :=
  match r return result (response_of r) with
  | FilesGet _ _ => Ok report
  | FilesList _ _ _ _ => Ok (mkFileList (Some [report]))
  | FilesCopy _ _ _ => Ok report
  | FilesDelete _ _ => Ok (JsonBody "")
  | FilesUpdate _ _ _ _ => Ok (JsonBody "{}")
  | ValuesGet _ _ _ => Ok (mkValueRange (Some [[CellStr "a"; CellInt 1]]))
  | ValuesClear _ _ _ _ => Ok (JsonBody "{}")
  | ValuesUpdate _ _ _ _ _ => Ok (JsonBody "{}")
  | BatchUpdateDeleteSheet _ _ _ => Ok (JsonBody "{}")
  end.

(** A service that finds nothing. *)
Definition server_404 (_ : trace) (r : request) : result (response_of r) :=
  Raise (HttpError 404).

Definition documents : GoogleDriveDocumentManager :=
  mkManager ClsGoogleDriveDocumentManager ClsGoogleDriveDocument
    (Some "key.json").

Definition book : GoogleDriveFile :=
  file_init ClsGoogleDriveSpreadsheet "book-1" (Some "Budget") None.
Definition other_book : GoogleDriveFile :=
  file_init ClsGoogleDriveSpreadsheet "book-2" (Some "Budget") None.

Definition loose_sheet : Sheet :=
  Sheet_init (Some 0) (Some 0) (Some "Sheet1") None None.
Definition sheet1 : Sheet := assign_spreadsheet loose_sheet book.
Definition other_sheet1 : Sheet := assign_spreadsheet loose_sheet other_book.

(** The keyword arguments of
    [filter(name="plan", trashed=False, folder=book, modified_by_me=True)]. *)
Definition call : kwargs :=
  [("name", KwStr "plan"); ("trashed", KwBool false);
   ("folder", KwFile book); ("modified_by_me", KwBool true)].

(** A file system with one key file. *)
Definition isfile (path : string) : bool := String.eqb path "key.json".

Definition no_file_manager : GoogleDriveDocumentManager :=
  mkManager ClsGoogleDriveDocumentManager ClsGoogleDriveDocument None.

Definition picture : item := <["id" := "img-7"]> ∅.
Definition nameless : item := <["name" := "draft"]> ∅.

(** A service that lists the report and a picture, whatever the query. *)
Definition listing_server (_ : trace) (r : request) : result (response_of r) :=
  match r return result (response_of r) with
  | FilesList _ _ _ _ => Ok (mkFileList (Some [report; picture]))
  | FilesGet _ _ => Raise (HttpError 404)
  | FilesCopy _ _ _ => Raise (HttpError 404)
  | FilesDelete _ _ => Raise (HttpError 404)
  | FilesUpdate _ _ _ _ => Raise (HttpError 404)
  | ValuesGet _ _ _ => Ok (mkValueRange None)
  | ValuesClear _ _ _ _ => Raise (HttpError 404)
  | ValuesUpdate _ _ _ _ _ => Raise (HttpError 404)
  | BatchUpdateDeleteSheet _ _ _ => Raise (HttpError 404)
  end.

(** A service on the requests of folders: every file lies in folders
    [root] and [folder-9], and every folder holds the report and a
    picture. *)
Definition folder_server (_ : list sent_request) (r : folder_request)
    : result (folder_response_of r) :=
  match r return result (folder_response_of r) with
  | FilesGetFields _ _ _ => Ok (mkParentsBody (Some ["root"; "folder-9"]))
  | FilesListQuery _ _ => Ok (mkFileList (Some [report; picture]))
  end.

Definition grid : GridProperties := mkGridProperties 1000 26.
Definition full_sheet : Sheet :=
  assign_spreadsheet
    (Sheet_init (Some 7) (Some 1) (Some "Data") None (Some grid)) book.

Definition teal : Color := mkColor (NumInt 0) (NumFloat 4602678819172646912) (NumInt 1).
Definition painted_sheet : Sheet :=
  assign_spreadsheet
    (Sheet_init (Some 7) (Some 1) (Some "Data") (Some teal) (Some grid)) book.

(** Properties whose [gridProperties] is the empty dict. *)
Definition bare_properties : sheet_properties :=
  mkSheetProperties (Some (Some 3)) (Some (Some 0)) (Some (Some "Notes"))
    (Some (Some ∅)) None.

(** Keyword arguments that name a MIME type of their own. *)
Definition typed_call : kwargs :=
  [("mime_type", KwStr "image/png"); ("name", KwStr "plan")].

(** The folder [folder-9], an instance of GoogleDriveFolder. *)
Definition archive : GoogleDriveFolder :=
  mkFolder (file_init ClsGoogleDriveFolder "folder-9" (Some "Archive") None)
    eq_refl.

Definition spreadsheets : GoogleDriveDocumentManager :=
  mkManager ClsGoogleDriveSpreadsheetManager ClsGoogleDriveSpreadsheet
    (Some "key.json").

Definition report_file : GoogleDriveFile :=
  file_init ClsGoogleDriveDocument "doc-1" (Some "report")
    (Some "application/vnd.google-apps.document").
End Demo.

Section Model.
(** *** What the sources at hand leave open *)

(** settings.MIME_TYPES, a table from short names to MIME types.  The
    module is not part of the sources, so the table is a parameter; the
    lookups the classes perform at import time ([MIME_TYPES['folder']]
    and so on) are taken to succeed. *)
Variable MIME_TYPES : string → string.

(** [os.environ.get("GOOGLE_DOCUMENT_SERVICE_JSON")] at import time. *)
Variable GOOGLE_DOCUMENT_SERVICE_JSON : option string.

(** oauth2client's [ServiceAccountCredentials.from_json_keyfile_name]
    and googleapiclient's [discovery.build]. *)
Variable from_json_keyfile_name : string → list string → result credentials.
Variable discovery_build : string → string → credentials → result service.

(** The properties [_api_service] and [_sheets_api_service] of a
    wrapper go through [objects()] and the credentials mixin, which
    are outside the sources: each is a lookup that may raise. *)
Variable _api_service : GoogleDriveFile → result service.
Variable _sheets_api_service : GoogleDriveFile → result service.

(** [file_obj.set_api_service(service)], from the credentials mixin: a
    call that may raise and returns [None]; the caller goes on with the
    same object. *)
Variable set_api_service : GoogleDriveFile → service → result unit.

(** The remote service: its answer to a request, given the requests
    executed before. *)
Variable server : trace → ∀ r : request, result (response_of r).

(** [os.path.isfile] *)
Variable isfile : string → bool.

(** [Color.from_item], which Color takes from its base class
    FromItemable, outside the sources: a call that may raise. *)
Variable Color_from_item_inherited : gmap string pynum → result Color.

(** The remote service on the requests of folders. *)
Variable folder_server :
  list sent_request → ∀ r : folder_request, result (folder_response_of r).

(** [request.execute()] *)
Definition execute (r : request) : M (response_of r) :=
  λ tr, (server tr r, (tr ++ [r])%list).

(** *** The factory *)

(** The class attribute [mime_type]. *)
Definition class_mime_type (c : file_class) : option string :=
  match c with
  | ClsGoogleDriveFile => None
  | ClsGoogleDriveFolder => Some (MIME_TYPES "folder")
  | ClsGoogleDriveDocument => Some (MIME_TYPES "document")
  | ClsGoogleDriveSpreadsheet => Some (MIME_TYPES "spreadsheet")
  end.

(** GoogleDriveFilesFactory.file_classes: a dict literal, a later
    entry replacing an earlier one with the same key. *)
Definition file_classes : gmap string file_class :=
  <[MIME_TYPES "spreadsheet" := ClsGoogleDriveSpreadsheet]>
    (<[MIME_TYPES "document" := ClsGoogleDriveDocument]>
      (<[MIME_TYPES "folder" := ClsGoogleDriveFolder]> ∅)).

Definition default_class : file_class := ClsGoogleDriveFile.

(** GoogleDriveFilesFactory.get_file_class:
    [file_classes.get(mime_type) or default_class].  A class object is
    truthy, so [or] takes the default only when the lookup gives
    [None]; the key [None] is in no dict with string keys. *)
Definition get_file_class (mime_type : option string) : file_class :=
  match mime_type with
  | Some m =>
      match file_classes !! m with
      | Some c => c
      | None => default_class
      end
  | None => default_class
  end.

(** GoogleDriveFilesFactory.from_item *)
Definition GoogleDriveFilesFactory_from_item (it : item)
    : result GoogleDriveFile :=
  GoogleDriveFile_from_item (get_file_class (it !! "mimeType")) it.

(** *** GoogleDriveDocumentManager *)

(** The property [_service_account_file] *)
Definition _service_account_file (self : GoogleDriveDocumentManager)
    : option string :=
  or_opt_str (custom_service_account_file self) GOOGLE_DOCUMENT_SERVICE_JSON.

(** [cls.get_service_from_credentials] *)
Definition get_service_from_credentials (c : manager_class)
    (creds : credentials) : result service :=
  discovery_build (resource_name c) ("v" +:+ pretty (version c)) creds.

(** [cls._get_service_from_service_account_file] *)
Definition _get_service_from_service_account_file (c : manager_class)
    (service_account_file : option string) : result service :=
  match service_account_file with
  | Some (String a f) =>
      result_bind (from_json_keyfile_name (String a f) SCOPES) (λ creds,
      get_service_from_credentials c creds)
  | _ => Raise service_account_file_not_found
  end.

Definition _get_api_service (self : GoogleDriveDocumentManager)
    : result service :=
  _get_service_from_service_account_file (mgr_cls self)
    (_service_account_file self).

(** GoogleDriveDocumentManager._get_item.  The service is the client of
    the API [resource_name] of the manager's class, so [.files()] raises
    on the manager of spreadsheets. *)
Definition _get_item (self : GoogleDriveDocumentManager) (id : string)
    : M item :=
  let! svc := lift (_get_api_service self) in
  let! _files := lift (files (resource_name (mgr_cls self))) in
  execute (FilesGet svc id).

(** GoogleDriveDocumentManager.get *)
Definition get (self : GoogleDriveDocumentManager) (id : string)
    : M (option GoogleDriveFile) :=
  except_HttpError
    (let! it := _get_item self id in
     let! file_obj := lift (GoogleDriveFile_from_item (file_cls_of self) it) in
     let! svc := lift (_get_api_service self) in
     let! _none := lift (set_api_service file_obj svc) in
     ret (Some file_obj))
    (ret None).

(** The first statement of [filter]: the class MIME type, when truthy,
    is stored under the key [mime_type]. *)
Definition filter_kwargs (self : GoogleDriveDocumentManager) (kw : kwargs)
    : kwargs :=
  match class_mime_type (file_cls_of self) with
  | Some (String a m) => dict_setitem kw "mime_type" (KwStr (String a m))
  | _ => kw
  end.

(** The query [q] of [filter] *)
Definition filter_query (self : GoogleDriveDocumentManager) (kw : kwargs)
    : result string :=
  result_bind (params_queries_loop (filter_kwargs self kw) []) (λ params_queries,
  Ok (str_join " and " params_queries)).

(** The loop [for file_item in files_items: result.append(..)] *)
Fixpoint from_items_loop (c : file_class) (files_items : list item)
    (results : list GoogleDriveFile) : result (list GoogleDriveFile) :=
  match files_items with
  | [] => Ok results
  | file_item :: rest =>
      result_bind (GoogleDriveFile_from_item c file_item) (λ f,
      from_items_loop c rest (results ++ [f])%list)
  end.

(** GoogleDriveDocumentManager.filter *)
Definition filter (self : GoogleDriveDocumentManager) (kw : kwargs)
    : M (list GoogleDriveFile) :=
  let! q := lift (filter_query self kw) in
  let! svc := lift (_get_api_service self) in
  let! _files := lift (files (resource_name (mgr_cls self))) in
  let! response :=
    execute (FilesList svc q "drive" "files(id, name, mimeType, parents)") in
  let files_items := default [] (fl_files response) in
  lift (from_items_loop (file_cls_of self) files_items []).

(** *** Methods of the file wrappers *)

(** GoogleDriveFile.copy; [self.from_item] builds an instance of the
    class of [self]. *)
Definition copy (self : GoogleDriveFile) (file_name : string)
    : M GoogleDriveFile :=
  let! svc := lift (_api_service self) in
  let! file_item := execute (FilesCopy svc (file_id self) file_name) in
  lift (GoogleDriveFile_from_item (file_cls self) file_item).

(** GoogleDriveFile.delete: the request is built and dropped; the
    method has no [.execute()] and returns [None]. *)
Definition delete (self : GoogleDriveFile) : M unit :=
  let! svc := lift (_api_service self) in
  let _request := FilesDelete svc (file_id self) in
  ret tt.

(** GoogleDriveFile.put_to_folder *)
Definition put_to_folder (self folder : GoogleDriveFile) : M json_body :=
  let! svc := lift (_api_service self) in
  execute (FilesUpdate svc (file_id self) (file_id folder) "id, parents").

(** GoogleDriveSpreadsheet.read *)
Definition GoogleDriveSpreadsheet_read (self : GoogleDriveFile)
    (range_name : string) : M values :=
  let! svc := lift (_sheets_api_service self) in
  let! response := execute (ValuesGet svc (file_id self) range_name) in
  ret (default [] (vr_values response)).

(** GoogleDriveSpreadsheet.clear *)
Definition GoogleDriveSpreadsheet_clear (self : GoogleDriveFile)
    (range_name : string) : M json_body :=
  let! svc := lift (_sheets_api_service self) in
  execute (ValuesClear svc (file_id self) range_name range_name).

(** GoogleDriveSpreadsheet.write; the caller passes "RAW" for a
    [value_input_option] it leaves out. *)
Definition GoogleDriveSpreadsheet_write (self : GoogleDriveFile)
    (range_name : string) (data : values) (value_input_option : string)
    : M json_body :=
  let! svc := lift (_sheets_api_service self) in
  execute (ValuesUpdate svc (file_id self) range_name data value_input_option).

(** GoogleDriveSpreadsheet.__getitem__ *)
Definition GoogleDriveSpreadsheet_getitem (self : GoogleDriveFile)
    (item : string) : M values :=
  GoogleDriveSpreadsheet_read self item.

(** GoogleDriveSpreadsheet.__setitem__ *)
Definition GoogleDriveSpreadsheet_setitem (self : GoogleDriveFile)
    (item : string) (value : values) : M unit :=
  let! _response :=
    GoogleDriveSpreadsheet_write self item value
      (file_set_item_value_input_option self) in
  ret tt.

(** *** Methods of Sheet *)

(** Sheet.read *)
Definition Sheet_read (self : Sheet) (range_name : string) : M values :=
  match sheet_spreadsheet self with
  | None => raise spreadsheet_unknown
  | Some spreadsheet =>
      GoogleDriveSpreadsheet_read spreadsheet
        (_get_spreadsheet_range_name self range_name)
  end.

(** Sheet.write *)
Definition Sheet_write (self : Sheet) (range_name : string) (data : values)
    (value_input_option : string) : M json_body :=
  match sheet_spreadsheet self with
  | None => raise spreadsheet_unknown
  | Some spreadsheet =>
      GoogleDriveSpreadsheet_write spreadsheet
        (_get_spreadsheet_range_name self range_name) data value_input_option
  end.

(** Sheet.clear *)
Definition Sheet_clear (self : Sheet) (range_name : string) : M json_body :=
  match sheet_spreadsheet self with
  | None => raise spreadsheet_unknown
  | Some spreadsheet =>
      GoogleDriveSpreadsheet_clear spreadsheet
        (_get_spreadsheet_range_name self range_name)
  end.

(** Sheet.delete.  The method assigns to [self]: the result pairs the
    response with the object as the call leaves it.  When the call
    raises, the assignment has not run and the object is as before. *)
Definition Sheet_delete (self : Sheet) : M (json_body * Sheet) :=
  match sheet_spreadsheet self with
  | None => raise spreadsheet_unknown
  | Some spreadsheet =>
      let! svc := lift (_sheets_api_service spreadsheet) in
      let! response :=
        (execute (BatchUpdateDeleteSheet svc (file_id spreadsheet)
                    (sheet_id self)) : M json_body) in
      ret (response, unassign_spreadsheet self)
  end.

(** Sheet.__getitem__ *)
Definition Sheet_getitem (self : Sheet) (item : string) : M values :=
  Sheet_read self item.

(** Sheet.__setitem__ *)
Definition Sheet_setitem (self : Sheet) (item : string) (value : values)
    : M unit :=
  let! _response :=
    Sheet_write self item value (sheet_set_item_value_input_option self) in
  ret tt.

(** *** More of the manager *)

(** GoogleDriveDocumentManager.using: the method stores the file on the
    manager and returns the manager; the result is the manager as the
    call leaves it. *)
Definition using_ (self : GoogleDriveDocumentManager)
    (service_account_file : string)
    : value_error + GoogleDriveDocumentManager :=
  if isfile service_account_file
  then inr {| mgr_cls := mgr_cls self;
              file_cls_of := file_cls_of self;
              custom_service_account_file := Some service_account_file |}
  else inl (ValueError ("`" +:+ service_account_file +:+ "` is not a file")).

(** *** More of the sheets *)

(** Sheet.from_item *)
Definition Sheet_from_item (it : sheet_item) : result Sheet :=
  result_bind (member "properties" (si_properties it)) (λ properties,
  result_bind
    (match truthy_member (sp_gridProperties properties) with
     | Some d => result_bind (GridProperties_from_item d) (λ g, Ok (Some g))
     | None => Ok None
     end) (λ grid_properties,
  result_bind
    (match truthy_member (sp_tabColor properties) with
     | Some d => result_bind (Color_from_item_inherited d) (λ c, Ok (Some c))
     | None => Ok None
     end) (λ tab_color,
  result_bind (member "sheetId" (sp_sheetId properties)) (λ id,
  result_bind (member "index" (sp_index properties)) (λ index,
  result_bind (member "title" (sp_title properties)) (λ title,
  Ok (Sheet_init id index title tab_color grid_properties))))))).

(** *** Folders *)

(** [request.execute()] for the requests of folders *)
Definition executeF (r : folder_request) : MF (folder_response_of r) :=
  λ tr, (folder_server tr r, (tr ++ [SentFolderRequest r])%list).

(** The property GoogleDriveFile.parents, a generator, read to its end
    as [list(file.parents)] does. *)
Definition parents (self : GoogleDriveFile) : MF (list GoogleDriveFile) :=
  let* svc := liftF (_api_service self) in
  let* response := executeF (FilesGetFields svc (file_id self) "parents") in
  let* parents := liftF (member "parents" (pb_parents response)) in
  retF (parent_folders parents).

(** GoogleDriveFolder.__contains__: [self in item.parents] walks the
    generator and compares [self] with each parent. *)
Definition GoogleDriveFolder_contains (self : GoogleDriveFolder)
    (item : GoogleDriveFile) : MF bool :=
  let* parents := parents item in
  retF (existsb (GoogleDriveFile_eq self) parents).

(** The loop [for item in children_items: yield factory.from_item(item)],
    run to its end. *)
Fixpoint children_loop (children_items : list item)
    : result (list GoogleDriveFile) :=
  match children_items with
  | [] => Ok []
  | it :: rest =>
      result_bind (GoogleDriveFilesFactory_from_item it) (λ child,
      result_bind (children_loop rest) (λ others,
      Ok (child :: others)))
  end.

(** The property GoogleDriveFolder.children, a generator, read to its
    end as [list(folder.children)] does. *)
Definition children (self : GoogleDriveFolder) : MF (list GoogleDriveFile) :=
  let* svc := liftF (_api_service self) in
  let* response :=
    executeF (FilesListQuery svc
                (dquote +:+ file_id self +:+ dquote +:+ " in parents")) in
  let* children_items := liftF (member "files" (fl_files response)) in
  liftF (children_loop children_items).

(** *** What the claims say about the factory *)

(** The three MIME types the factory dispatches on are distinct. *)
Definition mime_types_distinct : Prop :=
  MIME_TYPES "folder" ≠ MIME_TYPES "document"
  ∧ MIME_TYPES "folder" ≠ MIME_TYPES "spreadsheet"
  ∧ MIME_TYPES "document" ≠ MIME_TYPES "spreadsheet".

(** The class for a MIME type, as the specification words it. *)
Definition matching_class (mime_type : option string) : file_class :=
  match mime_type with
  | Some m =>
      if decide (m = MIME_TYPES "folder") then ClsGoogleDriveFolder
      else if decide (m = MIME_TYPES "document") then ClsGoogleDriveDocument
      else if decide (m = MIME_TYPES "spreadsheet")
      then ClsGoogleDriveSpreadsheet
      else ClsGoogleDriveFile
  | None => ClsGoogleDriveFile
  end.

(** *** The factory builds the class that matches the MIME type *)

Lemma from_item_class (c : file_class) (it : item) (f : GoogleDriveFile) :
  GoogleDriveFile_from_item c it = Ok f → file_cls f = c.
Proof.
  unfold GoogleDriveFile_from_item, dict_getitem.
  destruct (it !! "id"); simpl; [|discriminate].
  intros [= <-]. reflexivity.
Qed.

Lemma from_item_with_id (c : file_class) (it : item) (id : string) :
  it !! "id" = Some id →
  GoogleDriveFile_from_item c it
  = Ok (file_init c id (it !! "name") (it !! "mimeType")).
Proof.
  intros Hid. unfold GoogleDriveFile_from_item, dict_getitem.
  rewrite Hid. reflexivity.
Qed.

Lemma get_file_class_matching (mime_type : option string) :
  mime_types_distinct →
  get_file_class mime_type = matching_class mime_type.
Proof.
  intros (Hfd & Hfs & Hds).
  destruct mime_type as [m|]; [|reflexivity].
  unfold get_file_class, matching_class, file_classes, default_class.
  destruct (decide (m = MIME_TYPES "folder")) as [->|Hf].
  { rewrite lookup_insert_ne by congruence.
    rewrite lookup_insert_ne by congruence.
    rewrite lookup_insert_eq. reflexivity. }
  destruct (decide (m = MIME_TYPES "document")) as [->|Hd].
  { rewrite lookup_insert_ne by congruence.
    rewrite lookup_insert_eq. reflexivity. }
  destruct (decide (m = MIME_TYPES "spreadsheet")) as [->|Hs].
  { rewrite lookup_insert_eq. reflexivity. }
  rewrite !lookup_insert_ne by congruence.
  rewrite lookup_empty. reflexivity.
Qed.

(** C1.  With the three MIME types of the settings distinct, the
    factory hands every raw item to [from_item] of the class that
    matches the item's [mimeType] member: GoogleDriveFolder for the
    folder type, GoogleDriveDocument for the document type,
    GoogleDriveSpreadsheet for the spreadsheet type, GoogleDriveFile
    for any other type and for an item without the member.  Whatever
    the factory returns is an instance of that class, and it returns
    one for every item that has an [id]. *)
Theorem factory_from_item_matching_class (it : item) :
  mime_types_distinct →
  let c := matching_class (it !! "mimeType") in
  GoogleDriveFilesFactory_from_item it = GoogleDriveFile_from_item c it
  ∧ (∀ f, GoogleDriveFilesFactory_from_item it = Ok f → file_cls f = c)
  ∧ (∀ id, it !! "id" = Some id →
       GoogleDriveFilesFactory_from_item it
       = Ok (file_init c id (it !! "name") (it !! "mimeType"))).
Proof.
  intros Hdistinct c.
  assert (GoogleDriveFilesFactory_from_item it
          = GoogleDriveFile_from_item c it) as Heq.
  { unfold GoogleDriveFilesFactory_from_item.
    rewrite get_file_class_matching by exact Hdistinct. reflexivity. }
  split; [exact Heq|]. split.
  - intros f Hf. rewrite Heq in Hf. eapply from_item_class, Hf.
  - intros id Hid. rewrite Heq. apply from_item_with_id, Hid.
Qed.

(** *** The query of [filter] *)

Lemma param_camel_case_steps (s : string) :
  camel_case s (param_camel_case s)
  ∧ ∀ c, camel_case (String c s) (param_camel_case (String c s)).
Proof.
  induction s as [|d s' [IHs IHc]].
  - split; [constructor|].
    intros c. simpl. apply camel_keep; [|constructor].
    intros x s' _ [=].
  - split; [apply IHc|].
    intros c. cbn [param_camel_case].
    destruct (Ascii.eqb c "_" && is_lower d) eqn:Hpair.
    + apply andb_prop in Hpair as [Hc Hd].
      apply Ascii.eqb_eq in Hc. subst c.
      apply camel_pair; [exact Hd|exact IHs].
    + apply camel_keep; [|apply IHc].
      intros x s'' -> [= <- <-].
      rewrite Ascii.eqb_refl in Hpair. exact Hpair.
Qed.

Lemma param_camel_case_spec (s : string) :
  camel_case s (param_camel_case s).
Proof. apply param_camel_case_steps. Qed.

(** The relation of the specification fixes the camel-case form. *)
Lemma camel_case_unique (s t : string) :
  camel_case s t → t = param_camel_case s.
Proof.
  induction 1 as [|x s t Hx _ IH|c s t Hkeep _ IH].
  - reflexivity.
  - cbn [param_camel_case]. rewrite Hx. simpl. congruence.
  - subst t. destruct s as [|d s']; [reflexivity|].
    cbn [param_camel_case].
    destruct (Ascii.eqb c "_" && is_lower d) eqn:Hpair; [|reflexivity].
    apply andb_prop in Hpair as [Hc Hd].
    apply Ascii.eqb_eq in Hc.
    rewrite (Hkeep d s' Hc eq_refl) in Hd. discriminate.
Qed.

Lemma param_query_clause (param : string) (value : kwvalue) (clause : string) :
  param_query param value = Ok clause → clause_of param value clause.
Proof.
  unfold param_query.
  destruct (String.eqb param "folder") eqn:Hfolder.
  - apply String.eqb_eq in Hfolder. subst param.
    destruct value; simpl; try discriminate.
    intros [= <-]. constructor.
  - apply String.eqb_neq in Hfolder.
    destruct (is_bool value) eqn:Hbool; intros [= <-].
    + destruct value; try discriminate. simpl.
      apply clause_bool; [exact Hfolder|apply param_camel_case_spec].
    + apply clause_contains;
        [exact Hfolder|exact Hbool|apply param_camel_case_spec].
Qed.

Lemma param_query_defined (param : string) (value : kwvalue) :
  (param = "folder" → ∃ f, value = KwFile f) →
  ∃ clause, param_query param value = Ok clause.
Proof.
  intros Hfolder. unfold param_query.
  destruct (String.eqb param "folder") eqn:Heq.
  - apply String.eqb_eq in Heq. destruct (Hfolder Heq) as [f ->].
    simpl. eauto.
  - destruct (is_bool value); eauto.
Qed.

(** The loop appends one clause per pair, in the order of the dict. *)
Lemma params_queries_loop_spec (kw : kwargs) (acc : list string) :
  (∀ v, In ("folder", v) kw → ∃ f, v = KwFile f) →
  ∃ clauses,
    params_queries_loop kw acc = Ok (acc ++ clauses)%list
    ∧ Forall2 (λ p clause, param_query p.1 p.2 = Ok clause) kw clauses.
Proof.
  revert acc. induction kw as [|[param value] rest IH]; intros acc Hfolder.
  - exists []. rewrite app_nil_r. split; [reflexivity|constructor].
  - destruct (param_query_defined param value) as [clause Hclause].
    { intros ->. apply Hfolder. left. reflexivity. }
    destruct (IH (acc ++ [clause])%list) as (clauses & Hloop & Hall).
    { intros v Hv. apply Hfolder. right. exact Hv. }
    exists (clause :: clauses). split.
    + simpl. rewrite Hclause. simpl. rewrite Hloop.
      rewrite <- app_assoc. reflexivity.
    + constructor; [exact Hclause|exact Hall].
Qed.

Lemma dict_setitem_In (d : kwargs) (k : string) (v : kwvalue) :
  In (k, v) (dict_setitem d k v).
Proof.
  induction d as [|[k' v'] rest IH]; simpl; [left; reflexivity|].
  destruct (String.eqb k' k) eqn:Hk.
  - apply String.eqb_eq in Hk. subst k'. left. reflexivity.
  - right. exact IH.
Qed.

Lemma dict_setitem_other (d : kwargs) (k k' : string) (v v' : kwvalue) :
  k' ≠ k → In (k', v') (dict_setitem d k v) ↔ In (k', v') d.
Proof.
  intros Hne. induction d as [|[k0 v0] rest IH]; simpl.
  - split; [intros [[= ? ?]|[]]; congruence|intros []].
  - destruct (String.eqb k0 k) eqn:Hk; simpl.
    + apply String.eqb_eq in Hk. subst k0.
      split; (intros [[= ? ?]|H]; [congruence|right; exact H]).
    + rewrite IH. reflexivity.
Qed.

Lemma Forall2_In_l {A B} (P : A → B → Prop) (l : list A) (k : list B) (a : A) :
  Forall2 P l k → In a l → ∃ b, In b k ∧ P a b.
Proof.
  induction 1 as [|x y l k Hxy _ IH]; intros Hin; [destruct Hin|].
  destruct Hin as [->|Hin].
  - exists y. split; [left; reflexivity|exact Hxy].
  - destruct (IH Hin) as (b & Hb & HP). exists b. split; [right|]; assumption.
Qed.

(** A [folder] argument that is no wrapper makes the loop raise. *)
Lemma param_query_folder_raises (value : kwvalue) :
  (∀ f, value ≠ KwFile f) →
  ∃ msg, param_query "folder" value = Raise (AttributeError msg).
Proof.
  intros Hvalue. destruct value; simpl; eauto.
  destruct (Hvalue f eq_refl).
Qed.

(** [filter] of the Drive manager sends one request, the list request
    that carries the query. *)
Lemma filter_sends_query (self : GoogleDriveDocumentManager) (kw : kwargs)
    (q : string) (svc : service) (tr : trace) :
  mgr_cls self = ClsGoogleDriveDocumentManager →
  filter_query self kw = Ok q →
  _get_api_service self = Ok svc →
  (filter self kw tr).2
  = (tr ++ [FilesList svc q "drive" "files(id, name, mimeType, parents)"])%list.
Proof.
  intros Hcls Hq Hsvc. unfold filter, bind, lift, execute.
  rewrite Hq, Hsvc, Hcls. simpl.
  destruct (server tr _) as [response|e]; reflexivity.
Qed.

(** C2.  For a call [filter] with keyword arguments whose [folder]
    argument, if there is one, is a file wrapper: the query is the
    clauses of the arguments joined with [' and '], one clause per
    argument in the order of the call; the clause of [folder] is
    ['<folder.id>' in parents], the clause of a bool is
    [<camelKey> = <value>], the clause of any other value is
    [<camelKey> contains '<value>'], the camel-case key having each
    underscore-letter pair replaced by the upper-case letter.  The
    arguments are those of the caller, all but [mime_type] as passed;
    when the class of the manager has a MIME type (not [None], not
    empty) the argument [mime_type] carries it and its clause
    [mimeType contains '<type>'] is in the query; when the class has
    none the arguments are exactly the caller's. *)
Theorem filter_query_clauses (self : GoogleDriveDocumentManager) (kw : kwargs) :
  (∀ v, In ("folder", v) kw → ∃ f, v = KwFile f) →
  ∃ clauses,
    filter_query self kw = Ok (str_join " and " clauses)
    ∧ Forall2 (λ p clause, clause_of p.1 p.2 clause)
        (filter_kwargs self kw) clauses
    ∧ (∀ k v, k ≠ "mime_type" →
         In (k, v) (filter_kwargs self kw) ↔ In (k, v) kw)
    ∧ (∀ m, class_mime_type (file_cls_of self) = Some m → m ≠ "" →
         In ("mime_type", KwStr m) (filter_kwargs self kw)
         ∧ In ("mimeType contains '" +:+ m +:+ "'") clauses)
    ∧ (class_mime_type (file_cls_of self) = None →
         filter_kwargs self kw = kw).
Proof.
  intros Hfolder.
  destruct (params_queries_loop_spec (filter_kwargs self kw) [])
    as (clauses & Hloop & Hall).
  { intros v Hv. apply Hfolder. revert Hv. unfold filter_kwargs.
    destruct (class_mime_type (file_cls_of self)) as [[|a m]|];
      try (intros H; exact H).
    apply dict_setitem_other. discriminate. }
  exists clauses. split; [|split; [|split; [|split]]].
  - unfold filter_query. rewrite Hloop. reflexivity.
  - eapply Forall2_impl; [exact Hall|].
    intros [k v] clause Hq. apply param_query_clause, Hq.
  - intros k v Hk. unfold filter_kwargs.
    destruct (class_mime_type (file_cls_of self)) as [[|a m]|];
      try reflexivity.
    apply dict_setitem_other, Hk.
  - intros m Hm Hne. unfold filter_kwargs in *. rewrite Hm in *.
    destruct m as [|a m]; [congruence|].
    pose proof (dict_setitem_In kw "mime_type" (KwStr (String a m))) as Hin.
    split; [exact Hin|].
    destruct (Forall2_In_l _ _ _ _ Hall Hin) as (clause & Hclause & Hq).
    injection Hq as <-. exact Hclause.
  - intros Hnone. unfold filter_kwargs. rewrite Hnone. reflexivity.
Qed.

(** *** Sheets and their owning spreadsheet *)

(** C3.  On a sheet whose [spreadsheet] is [None], [read], [write] and
    [clear] raise the assertion error at once: the trace of executed
    requests is unchanged.  On a sheet whose [spreadsheet] is set the
    assertion passes: each method goes on with the body after it, and
    its outcome is that of the body. *)
Theorem sheet_methods_require_spreadsheet (self : Sheet) :
  (sheet_spreadsheet self = None →
     ∀ range_name data value_input_option tr,
       Sheet_read self range_name tr = (Raise spreadsheet_unknown, tr)
       ∧ Sheet_write self range_name data value_input_option tr
         = (Raise spreadsheet_unknown, tr)
       ∧ Sheet_clear self range_name tr = (Raise spreadsheet_unknown, tr))
  ∧ (∀ spreadsheet, sheet_spreadsheet self = Some spreadsheet →
     ∀ range_name data value_input_option tr,
       Sheet_read self range_name tr
       = (let! svc := lift (_sheets_api_service spreadsheet) in
          let! response :=
            execute (ValuesGet svc (file_id spreadsheet)
                       (_get_spreadsheet_range_name self range_name)) in
          ret (default [] (vr_values response))) tr
       ∧ Sheet_write self range_name data value_input_option tr
         = (let! svc := lift (_sheets_api_service spreadsheet) in
            execute (ValuesUpdate svc (file_id spreadsheet)
                       (_get_spreadsheet_range_name self range_name)
                       data value_input_option)) tr
       ∧ Sheet_clear self range_name tr
         = (let! svc := lift (_sheets_api_service spreadsheet) in
            execute (ValuesClear svc (file_id spreadsheet)
                       (_get_spreadsheet_range_name self range_name)
                       (_get_spreadsheet_range_name self range_name))) tr).
Proof.
  split.
  - intros Hnone range_name data value_input_option tr.
    unfold Sheet_read, Sheet_write, Sheet_clear. rewrite Hnone.
    repeat split.
  - intros spreadsheet Hsome range_name data value_input_option tr.
    unfold Sheet_read, Sheet_write, Sheet_clear. rewrite Hsome.
    repeat split.
Qed.

(** C6.  A sheet with an owning spreadsheet prefixes its title and an
    exclamation mark to the range and hands the call to the
    spreadsheet: [read], [write] and [clear] of the sheet are [read],
    [write] and [clear] of the spreadsheet on that range, with the
    same data and the same value input option. *)
Theorem sheet_methods_delegate (self : Sheet) (spreadsheet : GoogleDriveFile) :
  sheet_spreadsheet self = Some spreadsheet →
  ∀ range_name data value_input_option,
    let full_range :=
      format_opt_str (sheet_title self) +:+ "!" +:+ range_name in
    Sheet_read self range_name
    = GoogleDriveSpreadsheet_read spreadsheet full_range
    ∧ Sheet_write self range_name data value_input_option
      = GoogleDriveSpreadsheet_write spreadsheet full_range data
          value_input_option
    ∧ Sheet_clear self range_name
      = GoogleDriveSpreadsheet_clear spreadsheet full_range.
Proof.
  intros Hsome range_name data value_input_option full_range.
  unfold Sheet_read, Sheet_write, Sheet_clear. rewrite Hsome.
  repeat split.
Qed.

(** Running [m] and dropping its value, as a method without a
    [return] does. *)
Lemma bind_ret_tt {A} (m : M A) (tr : trace) :
  (let! _x := m in ret tt) tr
  = match m tr with
    | (Ok _, tr') => (Ok tt, tr')
    | (Raise e, tr') => (Raise e, tr')
    end.
Proof. unfold bind, ret. destruct (m tr) as [[a|e] tr']; reflexivity. Qed.

(** C9.  Subscripting is reading and writing by another name.  On a
    spreadsheet [s[r]] is [s.read(r)], and [s[r] = v] runs
    [s.write(r, v, s.set_item_value_input_option)]: same requests,
    same exception if any, the response dropped.  The same holds on a
    sheet.  The option is "RAW" on an instance as the constructors
    build it. *)
Theorem subscripts_are_read_and_write :
  (∀ (s : GoogleDriveFile) r,
     GoogleDriveSpreadsheet_getitem s r = GoogleDriveSpreadsheet_read s r)
  ∧ (∀ (s : GoogleDriveFile) r v tr,
       GoogleDriveSpreadsheet_setitem s r v tr
       = match GoogleDriveSpreadsheet_write s r v
                 (file_set_item_value_input_option s) tr with
         | (Ok _, tr') => (Ok tt, tr')
         | (Raise e, tr') => (Raise e, tr')
         end)
  ∧ (∀ (sh : Sheet) r, Sheet_getitem sh r = Sheet_read sh r)
  ∧ (∀ (sh : Sheet) r v tr,
       Sheet_setitem sh r v tr
       = match Sheet_write sh r v
                 (sheet_set_item_value_input_option sh) tr with
         | (Ok _, tr') => (Ok tt, tr')
         | (Raise e, tr') => (Raise e, tr')
         end)
  ∧ (∀ c id name mime_type,
       file_set_item_value_input_option (file_init c id name mime_type)
       = "RAW")
  ∧ (∀ id index title tab_color grid_properties,
       sheet_set_item_value_input_option
         (Sheet_init id index title tab_color grid_properties) = "RAW").
Proof.
  split; [reflexivity|]. split; [intros; apply bind_ret_tt|].
  split; [reflexivity|]. split; [intros; apply bind_ret_tt|].
  split; reflexivity.
Qed.

Lemma Sheet_delete_ok (self : Sheet) (tr tr' : trace) (response : json_body)
    (self' : Sheet) :
  Sheet_delete self tr = (Ok (response, self'), tr') →
  self' = unassign_spreadsheet self
  ∧ ∃ spreadsheet svc,
      sheet_spreadsheet self = Some spreadsheet
      ∧ _sheets_api_service spreadsheet = Ok svc
      ∧ tr' = (tr ++ [BatchUpdateDeleteSheet svc (file_id spreadsheet)
                        (sheet_id self)])%list.
Proof.
  unfold Sheet_delete.
  destruct (sheet_spreadsheet self) as [spreadsheet|]; [|discriminate].
  unfold bind, lift, ret, execute.
  destruct (_sheets_api_service spreadsheet) as [svc|e] eqn:Hsvc;
    [|discriminate].
  destruct (server tr _) as [body|e]; [|discriminate].
  intros [= _ <- <-]. split; [reflexivity|].
  exists spreadsheet, svc. split; [reflexivity|]. split; [exact Hsvc|].
  reflexivity.
Qed.

(** C10.  When [Sheet.delete] returns, it has executed the request that
    deletes the sheet from its spreadsheet, and the sheet it leaves has
    [spreadsheet] set to [None]; on that sheet [read], [write], [clear]
    and [delete] raise the assertion error without executing a request,
    and comparing it with any sheet, on either side, raises the
    assertion error. *)
Theorem sheet_unusable_after_delete (self self' : Sheet) (tr tr' : trace)
    (response : json_body) :
  Sheet_delete self tr = (Ok (response, self'), tr') →
  (∃ spreadsheet svc,
     sheet_spreadsheet self = Some spreadsheet
     ∧ tr' = (tr ++ [BatchUpdateDeleteSheet svc (file_id spreadsheet)
                       (sheet_id self)])%list)
  ∧ sheet_spreadsheet self' = None
  ∧ (∀ range_name data value_input_option tr2,
       Sheet_read self' range_name tr2 = (Raise spreadsheet_unknown, tr2)
       ∧ Sheet_write self' range_name data value_input_option tr2
         = (Raise spreadsheet_unknown, tr2)
       ∧ Sheet_clear self' range_name tr2 = (Raise spreadsheet_unknown, tr2)
       ∧ Sheet_delete self' tr2 = (Raise spreadsheet_unknown, tr2))
  ∧ (∀ other,
       Sheet_eq self' other = Raise spreadsheet_unknown
       ∧ Sheet_eq other self' = Raise spreadsheet_unknown).
Proof.
  intros Hdelete.
  apply Sheet_delete_ok in Hdelete
    as (-> & spreadsheet & svc & Hss & _ & ->).
  split; [exists spreadsheet, svc; split; [exact Hss|reflexivity]|].
  split; [reflexivity|]. split.
  - intros range_name data value_input_option tr2. repeat split.
  - intros other. split; [reflexivity|].
    unfold Sheet_eq. simpl.
    destruct (sheet_spreadsheet other); reflexivity.
Qed.

(** *** Deleting a file *)

(** C8.  [GoogleDriveFile.delete] executes no request: whatever the
    file and whatever was executed before, the trace after the call is
    the trace before it.  The delete request is built and never sent. *)
Theorem delete_executes_no_request (self : GoogleDriveFile) (tr : trace) :
  (delete self tr).2 = tr
  ∧ ∀ svc, _api_service self = Ok svc → delete self tr = (Ok tt, tr).
Proof.
  unfold delete, bind, lift, ret.
  destruct (_api_service self) as [svc|e]; simpl.
  - split; [reflexivity|]. intros svc' _. reflexivity.
  - split; [reflexivity|]. intros svc' [=].
Qed.

(** The siblings [put_to_folder] and [copy] do send their requests. *)
Lemma put_to_folder_executes (self folder : GoogleDriveFile) (tr : trace)
    (svc : service) :
  _api_service self = Ok svc →
  (put_to_folder self folder tr).2
  = (tr ++ [FilesUpdate svc (file_id self) (file_id folder) "id, parents"])%list.
Proof.
  intros Hsvc. unfold put_to_folder, bind, lift, execute.
  rewrite Hsvc. reflexivity.
Qed.

Lemma copy_executes (self : GoogleDriveFile) (file_name : string) (tr : trace)
    (svc : service) :
  _api_service self = Ok svc →
  (copy self file_name tr).2
  = (tr ++ [FilesCopy svc (file_id self) file_name])%list.
Proof.
  intros Hsvc. unfold copy, bind, lift, execute. rewrite Hsvc. simpl.
  destruct (server tr _) as [it|e]; reflexivity.
Qed.

(** *** [get] of the manager *)

(** X17.  On the manager of spreadsheets the service is the client of the
    Sheets API: [.files()] raises AttributeError in [get] and in
    [filter], once the service is resolved and, for [filter], the query
    built; the error is no HTTP error, nothing is executed. *)
Lemma spreadsheet_manager_has_no_files (self : GoogleDriveDocumentManager)
    (svc : service) :
  mgr_cls self = ClsGoogleDriveSpreadsheetManager →
  _get_api_service self = Ok svc →
  ∀ id kw q tr,
    get self id tr
    = (Raise (AttributeError "'Resource' object has no attribute 'files'"), tr)
    ∧ (filter_query self kw = Ok q →
       filter self kw tr
       = (Raise (AttributeError "'Resource' object has no attribute 'files'"),
          tr)).
Proof.
  intros Hcls Hsvc id kw q tr. split.
  - unfold get, except_HttpError, _get_item, bind, lift.
    rewrite Hsvc, Hcls. reflexivity.
  - intros Hq. unfold filter, bind, lift. rewrite Hq, Hsvc, Hcls. reflexivity.
Qed.

(** C4, as the code has it.  On the manager of Drive files, with its
    API service resolved, [get(id)] executes one request,
    [files().get(fileId=id)].  When the service answers with an item,
    [get] builds the wrapper with [from_item] of the manager's class
    [file_cls], hands it the API service and returns that wrapper: an
    object of the class of the manager with the id, name and MIME type
    of the item (an item without [id] raises KeyError).  When the
    service answers with an HTTP error, [get] catches it and returns
    [None]. *)
Theorem get_wraps_item_or_returns_none (self : GoogleDriveDocumentManager)
    (id : string) (tr : trace) (svc : service) :
  mgr_cls self = ClsGoogleDriveDocumentManager →
  _get_api_service self = Ok svc →
  let sent := (tr ++ [FilesGet svc id])%list in
  (∀ it : item, server tr (FilesGet svc id) = Ok it →
     (∀ file_obj,
        GoogleDriveFile_from_item (file_cls_of self) it = Ok file_obj →
        set_api_service file_obj svc = Ok tt →
        get self id tr = (Ok (Some file_obj), sent)
        ∧ file_cls file_obj = file_cls_of self
        ∧ it !! "id" = Some (file_id file_obj)
        ∧ file_name file_obj = it !! "name"
        ∧ file_mime_type file_obj = it !! "mimeType")
     ∧ (it !! "id" = None → get self id tr = (Raise (KeyError "id"), sent)))
  ∧ (∀ status, server tr (FilesGet svc id) = Raise (HttpError status) →
       get self id tr = (Ok None, sent)).
Proof.
  intros Hcls Hsvc sent. split.
  - intros it Hit. split.
    + intros file_obj Hobj Hset. split.
      * unfold get, except_HttpError, _get_item, bind, lift, ret, execute.
        rewrite Hsvc, Hcls. simpl. rewrite Hit, Hobj, Hset. reflexivity.
      * revert Hobj. unfold GoogleDriveFile_from_item, dict_getitem.
        destruct (it !! "id"); simpl; [|discriminate].
        intros [= <-]. repeat split.
    + intros Hid.
      unfold get, except_HttpError, _get_item, bind, lift, ret, execute.
      rewrite Hsvc, Hcls. simpl. rewrite Hit.
      unfold GoogleDriveFile_from_item, dict_getitem. rewrite Hid.
      reflexivity.
  - intros status Herr.
    unfold get, except_HttpError, _get_item, bind, lift, ret, execute.
    rewrite Hsvc, Hcls. simpl. rewrite Herr. reflexivity.
Qed.

(** *** Equality of wrappers *)

(** C5, as the code has it.  Two files are equal exactly when their ids
    are equal, whatever their classes, names and MIME types.  Two
    sheets are equal exactly when both have an owning spreadsheet, the
    two spreadsheets have equal ids, and the sheet ids are equal;
    comparing sheets raises the assertion error exactly when one of
    them has no spreadsheet. *)
Theorem equality_is_by_remote_identifiers :
  (∀ a b : GoogleDriveFile,
     GoogleDriveFile_eq a b = true ↔ file_id a = file_id b)
  ∧ (∀ s t : Sheet,
       Sheet_eq s t = Ok true
       ↔ ∃ ss st, sheet_spreadsheet s = Some ss
                  ∧ sheet_spreadsheet t = Some st
                  ∧ file_id ss = file_id st
                  ∧ sheet_id s = sheet_id t)
  ∧ (∀ s t : Sheet,
       Sheet_eq s t = Raise spreadsheet_unknown
       ↔ sheet_spreadsheet s = None ∨ sheet_spreadsheet t = None).
Proof.
  split; [|split].
  - intros a b. unfold GoogleDriveFile_eq. apply String.eqb_eq.
  - intros s t. unfold Sheet_eq, GoogleDriveFile_eq.
    destruct (sheet_spreadsheet s) as [ss|], (sheet_spreadsheet t) as [st|];
      try (split; [discriminate|intros (? & ? & ? & ? & _); discriminate]).
    split.
    + intros [= Hboth]. apply andb_prop in Hboth as [Hss Hid].
      apply String.eqb_eq in Hss. apply bool_decide_eq_true in Hid.
      exists ss, st. repeat split; assumption.
    + intros (ss' & st' & [= <-] & [= <-] & Hss & Hid).
      apply String.eqb_eq in Hss. rewrite Hss.
      rewrite bool_decide_eq_true_2 by exact Hid. reflexivity.
  - intros s t. unfold Sheet_eq.
    destruct (sheet_spreadsheet s) as [ss|], (sheet_spreadsheet t) as [st|];
      split; try discriminate; try (intros [|]; discriminate); auto.
Qed.

(** *** Items of colours and grid properties *)

(** C7.  [GridProperties.from_item] gives back the grid properties
    whose [to_item] it reads, with the same row and column counts.
    [Color.to_item] is the dict with exactly the keys [red], [green]
    and [blue], each holding the channel of that name, and reading the
    item back gives a colour with the same three channels. *)
Theorem items_round_trip :
  (∀ g : GridProperties,
     GridProperties_to_item g !! "rowCount" = Some (row_count g)
     ∧ GridProperties_to_item g !! "columnCount" = Some (column_count g)
     ∧ GridProperties_from_item (GridProperties_to_item g) = Ok g)
  ∧ (∀ c : Color,
       Color_to_item c !! "red" = Some (red c)
       ∧ Color_to_item c !! "green" = Some (green c)
       ∧ Color_to_item c !! "blue" = Some (blue c)
       ∧ (∀ k, k ≠ "red" → k ≠ "green" → k ≠ "blue" →
            Color_to_item c !! k = None)
       ∧ Color_from_item (Color_to_item c) = c).
Proof.
  split.
  - intros [rows columns].
    unfold GridProperties_from_item, GridProperties_to_item, dict_getitem.
    simpl. rewrite lookup_insert_ne by discriminate.
    rewrite !lookup_insert_eq. simpl. repeat split.
  - intros [r g b].
    assert (Color_to_item (mkColor r g b) !! "red" = Some r) as Hr.
    { unfold Color_to_item. simpl. apply lookup_insert_eq. }
    assert (Color_to_item (mkColor r g b) !! "green" = Some g) as Hg.
    { unfold Color_to_item. simpl.
      rewrite !lookup_insert_ne by discriminate. apply lookup_insert_eq. }
    assert (Color_to_item (mkColor r g b) !! "blue" = Some b) as Hb.
    { unfold Color_to_item. simpl.
      rewrite lookup_insert_ne by discriminate. apply lookup_insert_eq. }
    split; [exact Hr|]. split; [exact Hg|]. split; [exact Hb|]. split.
    + intros k Hkr Hkg Hkb. unfold Color_to_item.
      rewrite !lookup_insert_ne by congruence. apply lookup_empty.
    + unfold Color_from_item. rewrite Hr, Hg, Hb. reflexivity.
Qed.

(** *** More on the camel-case form of a key *)

Lemma upper_not_lower (x : ascii) :
  is_lower x = true → is_lower (upper x) = false.
Proof.
  destruct x as [[] [] [] [] [] [] [] []]; vm_compute;
    intros H; try discriminate H; reflexivity.
Qed.

Lemma upper_not_underscore (x : ascii) :
  is_lower x = true → Ascii.eqb (upper x) "_" = false.
Proof.
  destruct x as [[] [] [] [] [] [] [] []]; vm_compute;
    intros H; try discriminate H; reflexivity.
Qed.

(** The first character of the camel-case form is the first character
    of the key, or an upper-case letter. *)
Lemma param_camel_case_head (d : ascii) (s : string) :
  ∃ h t, param_camel_case (String d s) = String h t
         ∧ (h = d ∨ is_lower h = false).
Proof.
  destruct s as [|x s']; cbn [param_camel_case].
  - exists d, EmptyString. auto.
  - destruct (Ascii.eqb d "_" && is_lower x) eqn:Hpair.
    + apply andb_prop in Hpair as [_ Hx].
      eexists _, _. split; [reflexivity|].
      right. apply upper_not_lower, Hx.
    + eexists _, _. split; [reflexivity|]. left. reflexivity.
Qed.

Lemma has_match_cons (c d : ascii) (rest : string) :
  has_match (String c (String d rest))
  = (Ascii.eqb c "_" && is_lower d) || has_match (String d rest).
Proof. reflexivity. Qed.

Lemma param_camel_case_cons (c d : ascii) (rest : string) :
  param_camel_case (String c (String d rest))
  = if Ascii.eqb c "_" && is_lower d
    then String (upper d) (param_camel_case rest)
    else String c (param_camel_case (String d rest)).
Proof. reflexivity. Qed.

Lemma has_match_camel_steps (s : string) :
  has_match (param_camel_case s) = false
  ∧ ∀ c, has_match (param_camel_case (String c s)) = false.
Proof.
  induction s as [|d s' [IHs IHc]].
  - split; [reflexivity|]. intros c. reflexivity.
  - split; [apply IHc|].
    intros c. rewrite param_camel_case_cons.
    destruct (Ascii.eqb c "_" && is_lower d) eqn:Hpair.
    + apply andb_prop in Hpair as [_ Hd].
      destruct (param_camel_case s') as [|h t] eqn:Hout; [reflexivity|].
      rewrite has_match_cons, (upper_not_underscore d Hd). exact IHs.
    + destruct (param_camel_case_head d s') as (h & t & Hout & Hh).
      specialize (IHc d). rewrite Hout in *.
      rewrite has_match_cons, IHc, orb_false_r.
      destruct Hh as [->|Hh]; [exact Hpair|].
      rewrite Hh. apply andb_false_r.
Qed.

Lemma camel_fixes_steps (s : string) :
  (has_match s = false → param_camel_case s = s)
  ∧ ∀ c, has_match (String c s) = false →
         param_camel_case (String c s) = String c s.
Proof.
  induction s as [|d s' [IHs IHc]].
  - split; [reflexivity|]. intros c _. reflexivity.
  - split; [apply IHc|].
    intros c Hc. rewrite has_match_cons in Hc.
    apply orb_false_elim in Hc as [Hpair Hrest].
    rewrite param_camel_case_cons, Hpair.
    f_equal. apply IHc, Hrest.
Qed.

Lemma camel_length_steps (s : string) :
  (String.length (param_camel_case s) ≤ String.length s)%nat
  ∧ ∀ c, (String.length (param_camel_case (String c s))
          ≤ String.length (String c s))%nat.
Proof.
  induction s as [|d s' [IHs IHc]].
  - split; [reflexivity|]. intros c. reflexivity.
  - split; [apply IHc|].
    intros c. rewrite param_camel_case_cons.
    specialize (IHc d). revert IHc.
    generalize (param_camel_case (String d s')). intros out Hout.
    destruct (Ascii.eqb c "_" && is_lower d); simpl in *; lia.
Qed.

Lemma camel_shrinks_steps (s : string) :
  (has_match s = true →
   (String.length (param_camel_case s) < String.length s)%nat)
  ∧ ∀ c, has_match (String c s) = true →
         (String.length (param_camel_case (String c s))
          < String.length (String c s))%nat.
Proof.
  induction s as [|d s' [IHs IHc]].
  - split; [discriminate|]. intros c. discriminate.
  - split; [apply IHc|].
    intros c Hc. rewrite has_match_cons in Hc.
    rewrite param_camel_case_cons.
    pose proof (proj1 (camel_length_steps s')) as Hle.
    specialize (IHc d). revert IHc Hc.
    generalize (param_camel_case (String d s')),
      (has_match (String d s')). intros out m Hout Hc.
    destruct (Ascii.eqb c "_" && is_lower d) eqn:Hpair; simpl in *.
    + lia.
    + specialize (Hout Hc). lia.
Qed.

(** X1.  The camel-case form of a key holds no underscore followed by a
    lower-case letter, so converting it again changes nothing; and a
    key is its own camel-case form exactly when it holds no such pair. *)
Theorem param_camel_case_normal_form (param : string) :
  has_match (param_camel_case param) = false
  ∧ param_camel_case (param_camel_case param) = param_camel_case param
  ∧ (param_camel_case param = param ↔ has_match param = false).
Proof.
  pose proof (proj1 (has_match_camel_steps param)) as Hfree.
  split; [exact Hfree|]. split.
  - apply (proj1 (camel_fixes_steps _)), Hfree.
  - split.
    + intros Hfix. destruct (has_match param) eqn:Hm; [|reflexivity].
      pose proof (proj1 (camel_shrinks_steps param) Hm) as Hlt.
      rewrite Hfix in Hlt. lia.
    + apply (proj1 (camel_fixes_steps param)).
Qed.

(** *** More on [filter] *)

Lemma param_query_error (param : string) (value : kwvalue) (e : exn) :
  param_query param value = Raise e → ∃ msg, e = AttributeError msg.
Proof.
  unfold param_query.
  destruct (String.eqb param "folder").
  - destruct value; simpl; intros [= <-]; eauto.
  - destruct (is_bool value); discriminate.
Qed.

Lemma params_queries_loop_error (kw : kwargs) (acc : list string) (e : exn) :
  params_queries_loop kw acc = Raise e → ∃ msg, e = AttributeError msg.
Proof.
  revert acc. induction kw as [|[param value] rest IH]; intros acc; simpl.
  - discriminate.
  - destruct (param_query param value) as [clause|e'] eqn:Hq; simpl.
    + apply IH.
    + intros [= <-]. eapply param_query_error, Hq.
Qed.

Lemma params_queries_loop_bad_folder (kw : kwargs) (acc : list string)
    (v : kwvalue) :
  In ("folder", v) kw → (∀ f, v ≠ KwFile f) →
  ∃ e, params_queries_loop kw acc = Raise e.
Proof.
  intros Hin Hbad. revert acc.
  induction kw as [|[param value] rest IH]; intros acc; [destruct Hin|].
  simpl. destruct Hin as [[= -> ->]|Hin].
  - destruct (param_query_folder_raises v Hbad) as [msg ->]. simpl. eauto.
  - destruct (param_query param value) as [clause|e]; simpl; eauto.
Qed.

(** X2.  When the [folder] argument of [filter] is not a file wrapper,
    [filter] raises AttributeError while it builds the query: no request
    is executed. *)
Theorem filter_bad_folder_raises (self : GoogleDriveDocumentManager)
    (kw : kwargs) (v : kwvalue) (tr : trace) :
  In ("folder", v) kw → (∀ f, v ≠ KwFile f) →
  ∃ msg, filter self kw tr = (Raise (AttributeError msg), tr).
Proof.
  intros Hin Hbad.
  assert (In ("folder", v) (filter_kwargs self kw)) as Hin'.
  { unfold filter_kwargs.
    destruct (class_mime_type (file_cls_of self)) as [[|a m]|];
      try exact Hin.
    apply dict_setitem_other; [discriminate|exact Hin]. }
  destruct (params_queries_loop_bad_folder _ [] v Hin' Hbad) as [e He].
  destruct (params_queries_loop_error _ _ _ He) as [msg ->].
  exists msg. unfold filter, filter_query, bind, lift.
  rewrite He. reflexivity.
Qed.

Lemma dict_setitem_keys (d : kwargs) (k : string) (v : kwvalue) :
  (In k (map fst d) → map fst (dict_setitem d k v) = map fst d)
  ∧ (¬ In k (map fst d) →
     map fst (dict_setitem d k v) = (map fst d ++ [k])%list).
Proof.
  induction d as [|[k' v'] rest [IHin IHout]]; simpl.
  - split; [intros []|reflexivity].
  - destruct (String.eqb k' k) eqn:Hk; simpl.
    + apply String.eqb_eq in Hk. subst k'. split; [reflexivity|].
      intros Hnot. destruct Hnot. left. reflexivity.
    + apply String.eqb_neq in Hk. split.
      * intros [Heq|Hin]; [destruct (Hk Heq)|]. rewrite IHin by exact Hin.
        reflexivity.
      * intros Hnot. rewrite IHout; [reflexivity|].
        intros Hin. apply Hnot. right. exact Hin.
Qed.

Lemma dict_setitem_NoDup (d : kwargs) (k : string) (v : kwvalue) :
  List.NoDup (map fst d) → List.NoDup (map fst (dict_setitem d k v)).
Proof.
  intros Hd. destruct (in_dec String.string_dec k (map fst d)) as [Hin|Hout].
  - rewrite (proj1 (dict_setitem_keys d k v) Hin). exact Hd.
  - rewrite (proj2 (dict_setitem_keys d k v) Hout).
    apply (proj1 (NoDup_ListNoDup _)). apply NoDup_app.
    split; [apply (proj2 (NoDup_ListNoDup _)), Hd|].
    split; [|apply NoDup_singleton].
    intros x Hx Hx'. apply list_elem_of_singleton in Hx'. subst x.
    apply Hout, list_elem_of_In, Hx.
Qed.

Lemma dict_setitem_value (d : kwargs) (k : string) (v v' : kwvalue) :
  List.NoDup (map fst d) → In (k, v') (dict_setitem d k v) → v' = v.
Proof.
  induction d as [|[k0 v0] rest IH]; simpl.
  - intros _ [[= ->]|[]]. reflexivity.
  - intros Hd. apply List.NoDup_cons_iff in Hd as [Hk0 Hrest].
    destruct (String.eqb k0 k) eqn:Hk; simpl.
    + apply String.eqb_eq in Hk. subst k0.
      intros [[= ->]|Hin]; [reflexivity|].
      destruct Hk0. apply (in_map fst) in Hin. exact Hin.
    + apply String.eqb_neq in Hk.
      intros [[= ? ?]|Hin]; [congruence|]. apply IH; assumption.
Qed.

(** X3.  On a manager whose class has a MIME type, the argument
    [mime_type] of the query is the type of the class whatever the
    caller passed under that name: the arguments keep distinct keys and
    [mime_type] holds the class type and nothing else. *)
Theorem filter_mime_type_is_the_class_type (self : GoogleDriveDocumentManager)
    (kw : kwargs) (m : string) :
  class_mime_type (file_cls_of self) = Some m → m ≠ "" →
  List.NoDup (map fst kw) →
  List.NoDup (map fst (filter_kwargs self kw))
  ∧ ∀ v, In ("mime_type", v) (filter_kwargs self kw) ↔ v = KwStr m.
Proof.
  intros Hm Hne Hkw. unfold filter_kwargs. rewrite Hm.
  destruct m as [|a m]; [destruct (Hne eq_refl)|]. split.
  - apply dict_setitem_NoDup, Hkw.
  - intros v. split.
    + apply dict_setitem_value, Hkw.
    + intros ->. apply dict_setitem_In.
Qed.

Lemma from_items_loop_ok (c : file_class) (files_items : list item)
    (acc : list GoogleDriveFile) :
  Forall (λ it : item, is_Some (it !! "id")) files_items →
  ∃ files,
    from_items_loop c files_items acc = Ok (acc ++ files)%list
    ∧ Forall2 (λ (it : item) f, GoogleDriveFile_from_item c it = Ok f)
        files_items files.
Proof.
  intros Hall. revert acc.
  induction Hall as [|it rest [id Hid] _ IH]; intros acc.
  - exists []. rewrite app_nil_r. split; [reflexivity|constructor].
  - pose proof (from_item_with_id c it id Hid) as Hf.
    destruct (IH (acc ++ [file_init c id (it !! "name") (it !! "mimeType")])%list)
      as (files & Hloop & Hfiles).
    eexists (_ :: files). split.
    + simpl. rewrite Hf. simpl. rewrite Hloop, <- app_assoc. reflexivity.
    + constructor; [exact Hf|exact Hfiles].
Qed.

Lemma from_items_loop_missing_id (c : file_class) (files_items : list item)
    (acc : list GoogleDriveFile) :
  Exists (λ it : item, it !! "id" = None) files_items →
  from_items_loop c files_items acc = Raise (KeyError "id").
Proof.
  revert acc. induction files_items as [|it rest IH]; intros acc Hex.
  - inversion Hex.
  - simpl. unfold GoogleDriveFile_from_item at 1, dict_getitem.
    destruct (it !! "id") as [id|] eqn:Hid; simpl; [|reflexivity].
    apply IH. inversion Hex as [? ? Hnone|]; subst; [congruence|assumption].
Qed.

(** X4.  On the manager of Drive files, when the list request of
    [filter] is answered, [filter] returns one wrapper per item of the
    member [files], in the order of the answer, each of the class of the
    manager (whatever the MIME type of the item) with the id, name and
    MIME type of its item.  An answer without the member [files] gives
    the empty list; an item without [id] makes [filter] raise KeyError.
    One request is executed. *)
Theorem filter_wraps_items (self : GoogleDriveDocumentManager) (kw : kwargs)
    (tr : trace) (q : string) (svc : service) (response : file_list) :
  mgr_cls self = ClsGoogleDriveDocumentManager →
  filter_query self kw = Ok q →
  _get_api_service self = Ok svc →
  server tr (FilesList svc q "drive" "files(id, name, mimeType, parents)")
  = Ok response →
  let files_items := default [] (fl_files response) in
  let sent :=
    (tr ++ [FilesList svc q "drive" "files(id, name, mimeType, parents)"])%list in
  (Forall (λ it : item, is_Some (it !! "id")) files_items →
     ∃ files,
       filter self kw tr = (Ok files, sent)
       ∧ Forall2 (λ (it : item) f,
                    file_cls f = file_cls_of self
                    ∧ it !! "id" = Some (file_id f)
                    ∧ file_name f = it !! "name"
                    ∧ file_mime_type f = it !! "mimeType")
           files_items files)
  ∧ (Exists (λ it : item, it !! "id" = None) files_items →
       filter self kw tr = (Raise (KeyError "id"), sent))
  ∧ (fl_files response = None → filter self kw tr = (Ok [], sent)).
Proof.
  intros Hcls Hq Hsvc Hresponse files_items sent.
  assert (filter self kw tr
          = (from_items_loop (file_cls_of self) files_items [], sent)) as Hfilter.
  { unfold filter, bind, lift, execute. rewrite Hq, Hsvc, Hcls. simpl.
    rewrite Hresponse. reflexivity. }
  rewrite Hfilter. split; [|split].
  - intros Hall.
    destruct (from_items_loop_ok (file_cls_of self) files_items [] Hall)
      as (files & Hloop & Hfiles).
    exists files. split; [rewrite Hloop; reflexivity|].
    eapply Forall2_impl; [exact Hfiles|].
    intros it f. unfold GoogleDriveFile_from_item, dict_getitem.
    destruct (it !! "id"); simpl; [|discriminate].
    intros [= <-]. repeat split.
  - intros Hex. rewrite from_items_loop_missing_id by exact Hex. reflexivity.
  - intros Hnone. subst files_items. rewrite Hnone. reflexivity.
Qed.

(** X5.  [filter] does not catch the error of its request: on the
    manager of Drive files, when the service answers the list request
    with an error, an HTTP error included, [filter] raises that error. *)
Theorem filter_propagates_server_error (self : GoogleDriveDocumentManager)
    (kw : kwargs) (tr : trace) (q : string) (svc : service) (e : exn) :
  mgr_cls self = ClsGoogleDriveDocumentManager →
  filter_query self kw = Ok q →
  _get_api_service self = Ok svc →
  server tr (FilesList svc q "drive" "files(id, name, mimeType, parents)")
  = Raise e →
  filter self kw tr
  = (Raise e,
     (tr ++ [FilesList svc q "drive" "files(id, name, mimeType, parents)"])%list).
Proof.
  intros Hcls Hq Hsvc Herr. unfold filter, bind, lift, execute.
  rewrite Hq, Hsvc, Hcls. simpl. rewrite Herr. reflexivity.
Qed.

(** *** More on the manager *)


(** X7.  A manager with no service account file, neither its own nor
    the one of the environment, cannot resolve its API service: [get]
    raises the AssertionError (it is no HTTP error and is not caught),
    and so does [filter] once the query is built; neither executes a
    request. *)
Theorem no_service_account_file (self : GoogleDriveDocumentManager) :
  truthy_opt_str (custom_service_account_file self) = false →
  truthy_opt_str GOOGLE_DOCUMENT_SERVICE_JSON = false →
  ∀ id kw q tr,
    get self id tr = (Raise service_account_file_not_found, tr)
    ∧ (filter_query self kw = Ok q →
       filter self kw tr = (Raise service_account_file_not_found, tr)).
Proof.
  intros Hcustom Henv id kw q tr.
  assert (_get_api_service self = Raise service_account_file_not_found)
    as Hsvc.
  { unfold _get_api_service, _service_account_file, or_opt_str.
    rewrite Hcustom.
    destruct GOOGLE_DOCUMENT_SERVICE_JSON as [[|a f]|];
      try discriminate; reflexivity. }
  split.
  - unfold get, except_HttpError, _get_item, bind, lift.
    rewrite Hsvc. reflexivity.
  - intros Hq. unfold filter, bind, lift. rewrite Hq, Hsvc. reflexivity.
Qed.

(** X8.  [using] accepts a path exactly when it names a file.  The
    manager it returns resolves its API service from that file, whatever
    the environment says, and keeps its class and its wrapper class;
    any other path raises ValueError. *)
Theorem using_selects_the_key_file (self : GoogleDriveDocumentManager)
    (service_account_file : string) :
  isfile "" = false →
  (isfile service_account_file = true →
     ∃ self', using_ self service_account_file = inr self'
       ∧ mgr_cls self' = mgr_cls self
       ∧ file_cls_of self' = file_cls_of self
       ∧ _service_account_file self' = Some service_account_file
       ∧ _get_api_service self'
         = result_bind (from_json_keyfile_name service_account_file SCOPES)
             (get_service_from_credentials (mgr_cls self)))
  ∧ (isfile service_account_file = false →
       ∃ msg, using_ self service_account_file = inl (ValueError msg)).
Proof.
  intros Hempty. unfold using_. split; intros Hfile; rewrite Hfile.
  - eexists. split; [reflexivity|]. split; [reflexivity|].
    split; [reflexivity|].
    destruct service_account_file as [|a f]; [congruence|].
    split; reflexivity.
  - eauto.
Qed.

(** *** More on the factory *)

(** X9.  With the three MIME types distinct, the factory maps the MIME
    type of each class back to that class.  So an item that carries the
    MIME type of a class and an id becomes an instance of that class
    whose attribute [mime_type] equals the class attribute; and an item
    without id makes the factory raise KeyError whatever its MIME
    type. *)
Theorem factory_inverts_class_mime_type :
  mime_types_distinct →
  (∀ c, get_file_class (class_mime_type c) = c)
  ∧ (∀ c m (it : item) id,
       class_mime_type c = Some m →
       it !! "mimeType" = Some m →
       it !! "id" = Some id →
       ∃ f, GoogleDriveFilesFactory_from_item it = Ok f
            ∧ file_cls f = c
            ∧ file_id f = id
            ∧ file_mime_type f = class_mime_type c)
  ∧ (∀ it : item, it !! "id" = None →
       GoogleDriveFilesFactory_from_item it = Raise (KeyError "id")).
Proof.
  intros Hdistinct.
  assert (∀ c, get_file_class (class_mime_type c) = c) as Hinv.
  { intros c. rewrite get_file_class_matching by exact Hdistinct.
    destruct Hdistinct as (Hfd & Hfs & Hds).
    destruct c; simpl; repeat case_decide; congruence. }
  split; [exact Hinv|]. split.
  - intros c m it id Hc Hm Hid.
    unfold GoogleDriveFilesFactory_from_item.
    rewrite Hm, <- Hc, Hinv, (from_item_with_id _ _ _ Hid).
    eexists. split; [reflexivity|]. simpl. rewrite Hm. auto.
  - intros it Hid.
    unfold GoogleDriveFilesFactory_from_item, GoogleDriveFile_from_item,
      dict_getitem.
    rewrite Hid. reflexivity.
Qed.

(** *** More on equality *)

(** X10.  Equality of files is reflexive, symmetric and transitive.
    Equality of sheets is symmetric, raising included, and transitive;
    a sheet equals itself when it has a spreadsheet, and comparing it
    with itself raises when it has none. *)
Theorem wrapper_equality_laws :
  (∀ a, GoogleDriveFile_eq a a = true)
  ∧ (∀ a b, GoogleDriveFile_eq a b = GoogleDriveFile_eq b a)
  ∧ (∀ a b c, GoogleDriveFile_eq a b = true → GoogleDriveFile_eq b c = true →
       GoogleDriveFile_eq a c = true)
  ∧ (∀ s t, Sheet_eq s t = Sheet_eq t s)
  ∧ (∀ s t u, Sheet_eq s t = Ok true → Sheet_eq t u = Ok true →
       Sheet_eq s u = Ok true)
  ∧ (∀ s, Sheet_eq s s
          = match sheet_spreadsheet s with
            | Some _ => Ok true
            | None => Raise spreadsheet_unknown
            end).
Proof.
  unfold GoogleDriveFile_eq.
  split; [intros a; apply String.eqb_refl|].
  split; [intros a b; apply String.eqb_sym|].
  split.
  { intros a b c Hab Hbc. apply String.eqb_eq in Hab, Hbc.
    apply String.eqb_eq. congruence. }
  split.
  { intros s t. unfold Sheet_eq, GoogleDriveFile_eq.
    destruct (sheet_spreadsheet s) as [ss|], (sheet_spreadsheet t) as [st|];
      try reflexivity.
    rewrite String.eqb_sym. do 2 f_equal.
    apply bool_decide_ext. split; congruence. }
  split.
  { intros s t u. unfold Sheet_eq, GoogleDriveFile_eq.
    destruct (sheet_spreadsheet s) as [ss|], (sheet_spreadsheet t) as [st|],
      (sheet_spreadsheet u) as [su|]; try discriminate.
    intros [= Hst] [= Htu].
    apply andb_prop in Hst as [Hst1 Hst2], Htu as [Htu1 Htu2].
    apply String.eqb_eq in Hst1, Htu1.
    apply bool_decide_eq_true in Hst2, Htu2.
    f_equal. apply andb_true_intro. split.
    - apply String.eqb_eq. congruence.
    - apply bool_decide_eq_true. congruence. }
  intros s. unfold Sheet_eq, GoogleDriveFile_eq.
  destruct (sheet_spreadsheet s) as [ss|]; [|reflexivity].
  rewrite String.eqb_refl, bool_decide_eq_true_2 by reflexivity. reflexivity.
Qed.

(** *** More on sheets *)

Lemma GridProperties_to_item_truthy (g : GridProperties) :
  truthy_member (Some (Some (GridProperties_to_item g)))
  = Some (GridProperties_to_item g).
Proof.
  unfold truthy_member. case_decide as Hsize; [|reflexivity].
  apply map_size_empty_iff in Hsize.
  assert (GridProperties_to_item g !! "columnCount" = Some (column_count g))
    as Hlookup by apply lookup_insert_eq.
  rewrite Hsize, lookup_empty in Hlookup. discriminate.
Qed.

Lemma Color_to_item_truthy (c : Color) :
  truthy_member (Some (Some (Color_to_item c))) = Some (Color_to_item c).
Proof.
  unfold truthy_member. case_decide as Hsize; [|reflexivity].
  apply map_size_empty_iff in Hsize.
  assert (Color_to_item c !! "red" = Some (red c))
    as Hlookup by apply lookup_insert_eq.
  rewrite Hsize, lookup_empty in Hlookup. discriminate.
Qed.

Lemma GridProperties_round_trip (g : GridProperties) :
  GridProperties_from_item (GridProperties_to_item g) = Ok g.
Proof.
  destruct g as [rows columns].
  unfold GridProperties_from_item, GridProperties_to_item, dict_getitem.
  simpl. rewrite lookup_insert_ne by discriminate.
  rewrite !lookup_insert_eq. reflexivity.
Qed.

(** X11.  Reading back the properties [to_item] writes, as the member
    [properties] of an item, gives a sheet with the same id, index,
    title, tab colour and grid properties, with no spreadsheet assigned
    and the value input option of a new sheet.  The tab colour, when the
    sheet has one, goes through [Color.from_item], taken here to give
    back the colour whose item it reads. *)
Theorem Sheet_item_round_trip (self : Sheet) :
  (∀ c, sheet_tab_color self = Some c →
        Color_from_item_inherited (Color_to_item c) = Ok c) →
  Sheet_from_item (mkSheetItem (Some (Sheet_to_item self)))
  = Ok (Sheet_init (sheet_id self) (sheet_index self) (sheet_title self)
          (sheet_tab_color self) (sheet_grid_properties self)).
Proof.
  intros Hcolor. unfold Sheet_from_item, Sheet_to_item.
  destruct (sheet_grid_properties self) as [g|],
    (sheet_tab_color self) as [c|];
    cbn -[truthy_member GridProperties_to_item Color_to_item
          GridProperties_from_item];
    rewrite ?GridProperties_to_item_truthy, ?GridProperties_round_trip,
      ?Color_to_item_truthy, ?(Hcolor c eq_refl);
    reflexivity.
Qed.

Lemma Sheet_from_item_ok (it : sheet_item) (s : Sheet) :
  Sheet_from_item it = Ok s →
  ∃ id index title tab_color grid_properties,
    s = Sheet_init id index title tab_color grid_properties.
Proof.
  unfold Sheet_from_item.
  destruct (member "properties" (si_properties it)) as [p|]; simpl;
    [|discriminate].
  destruct (match truthy_member (sp_gridProperties p) with
            | Some d => _ | None => _ end) as [grid|]; simpl; [|discriminate].
  destruct (match truthy_member (sp_tabColor p) with
            | Some d => _ | None => _ end) as [tab|]; simpl; [|discriminate].
  destruct (member "sheetId" (sp_sheetId p)) as [id|]; simpl; [|discriminate].
  destruct (member "index" (sp_index p)) as [index|]; simpl; [|discriminate].
  destruct (member "title" (sp_title p)) as [title|]; simpl; [|discriminate].
  intros [= <-]. eauto 6.
Qed.

(** X12.  A sheet that [from_item] builds has no spreadsheet: [read],
    [write] and [clear] raise the assertion error on it and execute
    nothing.  Once [assign_spreadsheet] gives it a spreadsheet, the
    same calls go to that spreadsheet, on the range prefixed with the
    title the item gave. *)
Theorem sheet_from_item_needs_spreadsheet (it : sheet_item) (s : Sheet) :
  Sheet_from_item it = Ok s →
  sheet_spreadsheet s = None
  ∧ (∀ range_name data value_input_option tr,
       Sheet_read s range_name tr = (Raise spreadsheet_unknown, tr)
       ∧ Sheet_write s range_name data value_input_option tr
         = (Raise spreadsheet_unknown, tr)
       ∧ Sheet_clear s range_name tr = (Raise spreadsheet_unknown, tr))
  ∧ (∀ spreadsheet range_name data value_input_option,
       let full_range := format_opt_str (sheet_title s) +:+ "!" +:+ range_name in
       Sheet_read (assign_spreadsheet s spreadsheet) range_name
       = GoogleDriveSpreadsheet_read spreadsheet full_range
       ∧ Sheet_write (assign_spreadsheet s spreadsheet) range_name data
           value_input_option
         = GoogleDriveSpreadsheet_write spreadsheet full_range data
             value_input_option
       ∧ Sheet_clear (assign_spreadsheet s spreadsheet) range_name
         = GoogleDriveSpreadsheet_clear spreadsheet full_range).
Proof.
  intros Hs.
  destruct (Sheet_from_item_ok it s Hs)
    as (id & index & title & tab_color & grid_properties & ->).
  split; [reflexivity|]. split.
  - intros range_name data value_input_option tr. repeat split.
  - intros spreadsheet range_name data value_input_option full_range.
    repeat split.
Qed.

(** X13.  How [Sheet.from_item] treats the member [gridProperties] of
    an item that has [sheetId], [index] and [title] and no tab colour:
    a missing member, [None] and the empty dict give a sheet without
    grid properties; a dict with members gives the grid properties of
    its [rowCount] and [columnCount], and raises KeyError when it lacks
    [rowCount], or has it and lacks [columnCount]. *)
Theorem Sheet_from_item_grid_properties (p : sheet_properties)
    (id index : option Z) (title : option string) :
  sp_sheetId p = Some id → sp_index p = Some index →
  sp_title p = Some title →
  truthy_member (sp_tabColor p) = None →
  Sheet_from_item (mkSheetItem (Some p))
  = match truthy_member (sp_gridProperties p) with
    | None => Ok (Sheet_init id index title None None)
    | Some d =>
        match d !! "rowCount", d !! "columnCount" with
        | Some rows, Some columns =>
            Ok (Sheet_init id index title None
                  (Some (mkGridProperties rows columns)))
        | None, _ => Raise (KeyError "rowCount")
        | Some _, None => Raise (KeyError "columnCount")
        end
    end.
Proof.
  intros Hid Hindex Htitle Htab.
  unfold Sheet_from_item. simpl. rewrite Htab, Hid, Hindex, Htitle.
  destruct (truthy_member (sp_gridProperties p)) as [d|]; [|reflexivity].
  unfold GridProperties_from_item, dict_getitem.
  destruct (d !! "rowCount"), (d !! "columnCount"); reflexivity.
Qed.

(** *** Folders *)

Lemma existsb_parent_folders (self : GoogleDriveFile) (ps : list string) :
  existsb (GoogleDriveFile_eq self) (parent_folders ps) = true
  ↔ In (file_id self) ps.
Proof.
  unfold parent_folders. rewrite existsb_exists. split.
  - intros (f & Hf & Heq). apply in_map_iff in Hf as (p & <- & Hp).
    apply String.eqb_eq in Heq. simpl in Heq. rewrite Heq. exact Hp.
  - intros Hin. exists (file_init ClsGoogleDriveFolder (file_id self) None None).
    split; [|apply String.eqb_refl].
    apply in_map_iff. eauto.
Qed.

(** X14.  For a folder [self], an instance of GoogleDriveFolder, and a
    file [item] of any class, with the API service of [item] resolved
    and the request for its parents answered: [item.parents] gives one
    GoogleDriveFolder per id of the member [parents], in order, with no
    name and no MIME type of its own; and [item in self] holds exactly
    when the id of the folder is among those ids.  An answer without the
    member [parents] makes both raise KeyError.  One request is
    executed. *)
Theorem parents_and_contains (self : GoogleDriveFolder)
    (item : GoogleDriveFile)
    (tr : list sent_request) (svc : service) (body : parents_body) :
  _api_service item = Ok svc →
  folder_server tr (FilesGetFields svc (file_id item) "parents") = Ok body →
  let sent :=
    (tr ++ [SentFolderRequest
              (FilesGetFields svc (file_id item) "parents")])%list in
  (∀ ps, pb_parents body = Some ps →
     (∃ folders,
        parents item tr = (Ok folders, sent)
        ∧ map file_id folders = ps
        ∧ Forall (λ f, file_cls f = ClsGoogleDriveFolder
                       ∧ file_name f = None
                       ∧ file_mime_type f = None) folders)
     ∧ ∃ b, GoogleDriveFolder_contains self item tr = (Ok b, sent)
            ∧ (b = true ↔ In (file_id self) ps))
  ∧ (pb_parents body = None →
       parents item tr = (Raise (KeyError "parents"), sent)
       ∧ GoogleDriveFolder_contains self item tr
         = (Raise (KeyError "parents"), sent)).
Proof.
  intros Hsvc Hbody sent. split.
  - intros ps Hps.
    assert (parents item tr = (Ok (parent_folders ps), sent)) as Hparents.
    { unfold parents, bindF, liftF, retF, executeF.
      rewrite Hsvc. simpl. rewrite Hbody. simpl. rewrite Hps. reflexivity. }
    split.
    + exists (parent_folders ps). split; [exact Hparents|]. split.
      * unfold parent_folders. rewrite map_map. simpl. apply map_id.
      * unfold parent_folders. apply Forall_map, Forall_forall.
        intros p _. repeat split.
    + exists (existsb (GoogleDriveFile_eq self) (parent_folders ps)). split.
      * unfold GoogleDriveFolder_contains, bindF, retF.
        rewrite Hparents. reflexivity.
      * apply existsb_parent_folders.
  - intros Hnone.
    assert (parents item tr = (Raise (KeyError "parents"), sent)) as Hparents.
    { unfold parents, bindF, liftF, retF, executeF.
      rewrite Hsvc. simpl. rewrite Hbody. simpl. rewrite Hnone. reflexivity. }
    split; [exact Hparents|].
    unfold GoogleDriveFolder_contains, bindF. rewrite Hparents. reflexivity.
Qed.

Lemma children_loop_ok (children_items : list item) :
  mime_types_distinct →
  Forall (λ it : item, is_Some (it !! "id")) children_items →
  ∃ files,
    children_loop children_items = Ok files
    ∧ Forall2 (λ (it : item) f,
                 file_cls f = matching_class (it !! "mimeType")
                 ∧ it !! "id" = Some (file_id f)
                 ∧ file_name f = it !! "name"
                 ∧ file_mime_type f = it !! "mimeType")
        children_items files.
Proof.
  intros Hdistinct Hall. induction Hall as [|it rest [id Hid] _ IH].
  - exists []. split; [reflexivity|constructor].
  - destruct IH as (files & Hloop & Hfiles).
    eexists (_ :: files). split.
    + simpl. unfold GoogleDriveFilesFactory_from_item.
      rewrite (from_item_with_id _ _ _ Hid). simpl. rewrite Hloop. reflexivity.
    + constructor; [|exact Hfiles]. simpl.
      rewrite get_file_class_matching by exact Hdistinct. auto.
Qed.

Lemma children_loop_missing_id (children_items : list item) :
  Exists (λ it : item, it !! "id" = None) children_items →
  children_loop children_items = Raise (KeyError "id").
Proof.
  induction children_items as [|it rest IH]; intros Hex.
  - inversion Hex.
  - simpl. unfold GoogleDriveFilesFactory_from_item at 1,
      GoogleDriveFile_from_item, dict_getitem.
    destruct (it !! "id") as [id|] eqn:Hid; simpl; [|reflexivity].
    rewrite IH; [reflexivity|].
    inversion Hex as [? ? Hnone|]; subst; [congruence|assumption].
Qed.

(** X15.  For a folder [self], an instance of GoogleDriveFolder, with
    the three MIME types distinct, the API service resolved and the
    list request of [children] answered: each item of the
    member [files] becomes a wrapper of the class that matches its MIME
    type, in the order of the answer; an item without [id] makes
    [children] raise KeyError; and an answer without the member [files]
    makes it raise KeyError too, where [filter] returns the empty list.
    One request is executed, with the query ["<id>" in parents]. *)
Theorem children_are_dispatched (self : GoogleDriveFolder)
    (tr : list sent_request) (svc : service) (response : file_list) :
  mime_types_distinct →
  _api_service self = Ok svc →
  let query := dquote +:+ file_id self +:+ dquote +:+ " in parents" in
  folder_server tr (FilesListQuery svc query) = Ok response →
  let sent := (tr ++ [SentFolderRequest (FilesListQuery svc query)])%list in
  (fl_files response = None →
     children self tr = (Raise (KeyError "files"), sent))
  ∧ (∀ children_items, fl_files response = Some children_items →
       (Forall (λ it : item, is_Some (it !! "id")) children_items →
          ∃ files,
            children self tr = (Ok files, sent)
            ∧ Forall2 (λ (it : item) f,
                         file_cls f = matching_class (it !! "mimeType")
                         ∧ it !! "id" = Some (file_id f)
                         ∧ file_name f = it !! "name"
                         ∧ file_mime_type f = it !! "mimeType")
                children_items files)
       ∧ (Exists (λ it : item, it !! "id" = None) children_items →
            children self tr = (Raise (KeyError "id"), sent))).
Proof.
  intros Hdistinct Hsvc query Hresponse sent.
  assert (children self tr
          = (result_bind (member "files" (fl_files response)) children_loop,
             sent)) as Hchildren.
  { unfold children, bindF, liftF, executeF. rewrite Hsvc. simpl.
    fold query. rewrite Hresponse. simpl.
    destruct (fl_files response); reflexivity. }
  rewrite Hchildren. split.
  - intros ->. reflexivity.
  - intros children_items ->. simpl. split.
    + intros Hall.
      destruct (children_loop_ok children_items Hdistinct Hall)
        as (files & -> & Hfiles).
      exists files. split; [reflexivity|exact Hfiles].
    + intros Hex. rewrite children_loop_missing_id by exact Hex. reflexivity.
Qed.

(** *** One call, at most one request *)

Ltac crush_requests :=
  intros;
  unfold at_most_one_request, bind, lift, ret, raise, execute,
    except_HttpError;
  intros;
  repeat case_match; simplify_eq/=; eauto.

(** X16.  Each of [get], [filter], [copy], [put_to_folder], the
    [read], [clear], [write] and subscript assignment of a spreadsheet,
    and the [read], [write], [clear], [delete] and subscript assignment
    of a sheet executes at most one request, whatever the service
    answers, and never touches the requests executed before. *)
Theorem one_request_per_call :
  (∀ self id, at_most_one_request (get self id))
  ∧ (∀ self kw, at_most_one_request (filter self kw))
  ∧ (∀ self file_name, at_most_one_request (copy self file_name))
  ∧ (∀ self folder, at_most_one_request (put_to_folder self folder))
  ∧ (∀ self range_name,
       at_most_one_request (GoogleDriveSpreadsheet_read self range_name))
  ∧ (∀ self range_name,
       at_most_one_request (GoogleDriveSpreadsheet_clear self range_name))
  ∧ (∀ self range_name data option,
       at_most_one_request
         (GoogleDriveSpreadsheet_write self range_name data option))
  ∧ (∀ self item value,
       at_most_one_request (GoogleDriveSpreadsheet_setitem self item value))
  ∧ (∀ self range_name, at_most_one_request (Sheet_read self range_name))
  ∧ (∀ self range_name data option,
       at_most_one_request (Sheet_write self range_name data option))
  ∧ (∀ self range_name, at_most_one_request (Sheet_clear self range_name))
  ∧ (∀ self, at_most_one_request (Sheet_delete self))
  ∧ (∀ self item value, at_most_one_request (Sheet_setitem self item value)).
Proof.
  repeat split.
  - unfold get, _get_item. crush_requests.
  - unfold filter. crush_requests.
  - unfold copy. crush_requests.
  - unfold put_to_folder. crush_requests.
  - unfold GoogleDriveSpreadsheet_read. crush_requests.
  - unfold GoogleDriveSpreadsheet_clear. crush_requests.
  - unfold GoogleDriveSpreadsheet_write. crush_requests.
  - unfold GoogleDriveSpreadsheet_setitem, GoogleDriveSpreadsheet_write.
    crush_requests.
  - unfold Sheet_read, GoogleDriveSpreadsheet_read. crush_requests.
  - unfold Sheet_write, GoogleDriveSpreadsheet_write. crush_requests.
  - unfold Sheet_clear, GoogleDriveSpreadsheet_clear. crush_requests.
  - unfold Sheet_delete. crush_requests.
  - unfold Sheet_setitem, Sheet_write, GoogleDriveSpreadsheet_write.
    crush_requests.
Qed.

End Model.
(** ** The theorems at concrete inputs *)

(** The factory on the item of a document. *)
Lemma factory_from_item_demo :
  GoogleDriveFilesFactory_from_item Demo.MIME_TYPES Demo.report
  = Ok (file_init ClsGoogleDriveDocument "doc-1" (Some "report")
          (Some "application/vnd.google-apps.document")).
Proof.
  assert (mime_types_distinct Demo.MIME_TYPES) as Hdistinct
    by (repeat split; discriminate).
  destruct (factory_from_item_matching_class Demo.MIME_TYPES Demo.report
              Hdistinct) as (_ & _ & Hid).
  exact (Hid "doc-1" eq_refl).
Defined.

(** An item of an unknown type, and an item without a type, give the
    default class. *)
Example factory_from_item_default :
  GoogleDriveFilesFactory_from_item Demo.MIME_TYPES
    (<["mimeType" := "image/png"]> (<["id" := "img-7"]> ∅))
  = Ok (file_init ClsGoogleDriveFile "img-7" None (Some "image/png"))
  ∧ GoogleDriveFilesFactory_from_item Demo.MIME_TYPES (<["id" := "x"]> ∅)
    = Ok (file_init ClsGoogleDriveFile "x" None None).
Proof. split; reflexivity. Qed.

Example filter_query_demo_value :
  filter_query Demo.MIME_TYPES Demo.documents Demo.call
  = Ok ("name contains 'plan' and trashed = False and 'book-1' in parents"
        +:+ " and modifiedByMe = True"
        +:+ " and mimeType contains 'application/vnd.google-apps.document'").
Proof. reflexivity. Qed.

(** The query of a call with four arguments on the manager of documents. *)
Lemma filter_query_demo :
  ∃ clauses,
    filter_query Demo.MIME_TYPES Demo.documents Demo.call
    = Ok (str_join " and " clauses)
    ∧ Forall2 (λ p clause, clause_of p.1 p.2 clause)
        (filter_kwargs Demo.MIME_TYPES Demo.documents Demo.call) clauses
    ∧ In ("mimeType contains 'application/vnd.google-apps.document'") clauses.
Proof.
  destruct (filter_query_clauses Demo.MIME_TYPES Demo.documents Demo.call)
    as (clauses & Hq & Hall & _ & Hmime & _).
  { intros v [H|[H|[H|[H|[]]]]]; try discriminate H.
    injection H as <-. exists Demo.book. reflexivity. }
  exists clauses. split; [exact Hq|]. split; [exact Hall|].
  apply (Hmime "application/vnd.google-apps.document");
    [reflexivity|discriminate].
Defined.

(** A sheet without a spreadsheet, and the same sheet in a spreadsheet. *)
Lemma sheet_methods_require_spreadsheet_demo :
  Sheet_read Demo._sheets_api_service Demo.server Demo.loose_sheet "A1:B2" []
  = (Raise spreadsheet_unknown, [])
  ∧ Sheet_read Demo._sheets_api_service Demo.server Demo.sheet1 "A1:B2" []
    = (Ok [[CellStr "a"; CellInt 1]],
       [ValuesGet Demo.sheets "book-1" "Sheet1!A1:B2"]).
Proof.
  destruct (sheet_methods_require_spreadsheet Demo._sheets_api_service
              Demo.server Demo.loose_sheet) as [Hnone _].
  destruct (sheet_methods_require_spreadsheet Demo._sheets_api_service
              Demo.server Demo.sheet1) as [_ Hsome].
  split.
  - exact (proj1 (Hnone eq_refl "A1:B2" [] "RAW" [])).
  - exact (proj1 (Hsome Demo.book eq_refl "A1:B2" [] "RAW" [])).
Defined.

Lemma sheet_methods_delegate_demo :
  Sheet_read Demo._sheets_api_service Demo.server Demo.sheet1 "A1:B2"
  = GoogleDriveSpreadsheet_read Demo._sheets_api_service Demo.server
      Demo.book "Sheet1!A1:B2"
  ∧ Sheet_write Demo._sheets_api_service Demo.server Demo.sheet1 "A1"
      [[CellInt 7]] "USER_ENTERED"
    = GoogleDriveSpreadsheet_write Demo._sheets_api_service Demo.server
        Demo.book "Sheet1!A1" [[CellInt 7]] "USER_ENTERED"
  ∧ Sheet_clear Demo._sheets_api_service Demo.server Demo.sheet1 "C:C"
    = GoogleDriveSpreadsheet_clear Demo._sheets_api_service Demo.server
        Demo.book "Sheet1!C:C".
Proof.
  pose proof (sheet_methods_delegate Demo._sheets_api_service Demo.server
                Demo.sheet1 Demo.book eq_refl) as H.
  split; [exact (proj1 (H "A1:B2" [] "RAW"))|].
  split; [exact (proj1 (proj2 (H "A1" [[CellInt 7]] "USER_ENTERED")))|].
  exact (proj2 (proj2 (H "C:C" [] "RAW"))).
Defined.

(** Deleting a sheet of a spreadsheet succeeds on the demo service; the
    sheet it leaves cannot be read or compared. *)
Lemma sheet_unusable_after_delete_demo :
  Sheet_delete Demo._sheets_api_service Demo.server Demo.sheet1 []
  = (Ok (JsonBody "{}", Demo.loose_sheet),
     [BatchUpdateDeleteSheet Demo.sheets "book-1" (Some 0)])
  ∧ Sheet_read Demo._sheets_api_service Demo.server Demo.loose_sheet "A1"
      [BatchUpdateDeleteSheet Demo.sheets "book-1" (Some 0)]
    = (Raise spreadsheet_unknown,
       [BatchUpdateDeleteSheet Demo.sheets "book-1" (Some 0)])
  ∧ Sheet_eq Demo.loose_sheet Demo.sheet1 = Raise spreadsheet_unknown.
Proof.
  assert (Sheet_delete Demo._sheets_api_service Demo.server Demo.sheet1 []
          = (Ok (JsonBody "{}", Demo.loose_sheet),
             [BatchUpdateDeleteSheet Demo.sheets "book-1" (Some 0)]))
    as Hdelete by reflexivity.
  destruct (sheet_unusable_after_delete Demo._sheets_api_service Demo.server
              Demo.sheet1 Demo.loose_sheet [] _ _ Hdelete)
    as (_ & _ & Hmethods & Heq).
  split; [exact Hdelete|]. split.
  - exact (proj1 (Hmethods "A1" [] "RAW" _)).
  - exact (proj1 (Heq Demo.sheet1)).
Defined.

(** [get] on the demo service and on the service that finds nothing. *)
Lemma get_demo :
  get None Demo.from_json_keyfile_name Demo.discovery_build
    Demo.set_api_service Demo.server Demo.documents "doc-1" []
  = (Ok (Some (file_init ClsGoogleDriveDocument "doc-1" (Some "report")
                 (Some "application/vnd.google-apps.document"))),
     [FilesGet Demo.drive "doc-1"])
  ∧ get None Demo.from_json_keyfile_name Demo.discovery_build
      Demo.set_api_service Demo.server_404 Demo.documents "doc-1" []
    = (Ok None, [FilesGet Demo.drive "doc-1"]).
Proof.
  split.
  - exact (proj1 (proj1 (proj1 (get_wraps_item_or_returns_none None
             Demo.from_json_keyfile_name Demo.discovery_build
             Demo.set_api_service Demo.server Demo.documents "doc-1" []
             Demo.drive eq_refl eq_refl) Demo.report eq_refl)
             Demo.report_file eq_refl eq_refl)).
  - exact (proj2 (get_wraps_item_or_returns_none None
             Demo.from_json_keyfile_name Demo.discovery_build
             Demo.set_api_service Demo.server_404 Demo.documents "doc-1" []
             Demo.drive eq_refl eq_refl) 404 eq_refl).
Defined.

(** The claim C4 has [get] hand the HTTP error of the service to its
    caller.  Here the service answers 404 to the one request [get]
    sends, and [get] returns [None]. *)
Lemma get_swallows_http_error :
  Demo.server_404 [] (FilesGet Demo.drive "missing") = Raise (HttpError 404)
  ∧ get None Demo.from_json_keyfile_name Demo.discovery_build
      Demo.set_api_service Demo.server_404 Demo.documents "missing" []
    = (Ok None, [FilesGet Demo.drive "missing"])
  ∧ (get None Demo.from_json_keyfile_name Demo.discovery_build
       Demo.set_api_service Demo.server_404 Demo.documents "missing" []).1
    ≠ Raise (HttpError 404).
Proof. split; [reflexivity|]. split; [reflexivity|discriminate]. Qed.

(** The claim C5 has two sheets equal as soon as their sheet ids are
    equal.  The first sheets of two spreadsheets both have id 0 and are
    not equal; two sheets without a spreadsheet cannot be compared. *)
Lemma sheets_with_equal_ids_differ :
  sheet_id Demo.sheet1 = sheet_id Demo.other_sheet1
  ∧ Sheet_eq Demo.sheet1 Demo.other_sheet1 = Ok false
  ∧ Sheet_eq Demo.loose_sheet Demo.loose_sheet = Raise spreadsheet_unknown.
Proof. repeat split. Qed.

(** C8 at a file: after [delete] nothing has been executed, while
    [put_to_folder] on the same file has sent its request. *)
Example delete_demo :
  delete Demo._api_service Demo.book [] = (Ok tt, [])
  ∧ put_to_folder Demo._api_service Demo.server Demo.book Demo.other_book []
    = (Ok (JsonBody "{}"),
       [FilesUpdate Demo.drive "book-1" "book-2" "id, parents"]).
Proof. split; reflexivity. Qed.

(** ** The further theorems at concrete inputs *)

Lemma filter_bad_folder_raises_demo :
  ∃ msg,
    filter Demo.MIME_TYPES None Demo.from_json_keyfile_name
      Demo.discovery_build Demo.server Demo.documents
      [("name", KwStr "plan"); ("folder", KwStr "book-1")] []
    = (Raise (AttributeError msg), []).
Proof.
  apply (filter_bad_folder_raises Demo.MIME_TYPES None
           Demo.from_json_keyfile_name Demo.discovery_build Demo.server
           Demo.documents _ (KwStr "book-1") []).
  - right. left. reflexivity.
  - intros f H. discriminate H.
Defined.

Lemma filter_mime_type_is_the_class_type_demo :
  List.NoDup (map fst (filter_kwargs Demo.MIME_TYPES Demo.documents
                         Demo.typed_call))
  ∧ ∀ v, In ("mime_type", v)
           (filter_kwargs Demo.MIME_TYPES Demo.documents Demo.typed_call)
         ↔ v = KwStr "application/vnd.google-apps.document".
Proof.
  apply (filter_mime_type_is_the_class_type Demo.MIME_TYPES Demo.documents
           Demo.typed_call "application/vnd.google-apps.document").
  - reflexivity.
  - discriminate.
  - repeat constructor; simpl; intuition discriminate.
Defined.

Example filter_query_drops_the_caller_type :
  filter_query Demo.MIME_TYPES Demo.documents Demo.typed_call
  = Ok ("mimeType contains 'application/vnd.google-apps.document'"
        +:+ " and name contains 'plan'").
Proof. reflexivity. Qed.

Lemma filter_wraps_items_demo :
  ∃ files,
    filter Demo.MIME_TYPES None Demo.from_json_keyfile_name
      Demo.discovery_build Demo.listing_server Demo.documents [] []
    = (Ok files,
       [FilesList Demo.drive
          "mimeType contains 'application/vnd.google-apps.document'"
          "drive" "files(id, name, mimeType, parents)"])
    ∧ Forall2 (λ (it : item) f,
                 file_cls f = ClsGoogleDriveDocument
                 ∧ it !! "id" = Some (file_id f)
                 ∧ file_name f = it !! "name"
                 ∧ file_mime_type f = it !! "mimeType")
        [Demo.report; Demo.picture] files.
Proof.
  apply (proj1 (filter_wraps_items Demo.MIME_TYPES None
                  Demo.from_json_keyfile_name Demo.discovery_build
                  Demo.listing_server Demo.documents [] []
                  "mimeType contains 'application/vnd.google-apps.document'"
                  Demo.drive (mkFileList (Some [Demo.report; Demo.picture]))
                  eq_refl eq_refl eq_refl eq_refl)).
  repeat constructor; eexists; reflexivity.
Defined.

Lemma filter_propagates_server_error_demo :
  filter Demo.MIME_TYPES None Demo.from_json_keyfile_name
    Demo.discovery_build Demo.server_404 Demo.documents [] []
  = (Raise (HttpError 404),
     [FilesList Demo.drive
        "mimeType contains 'application/vnd.google-apps.document'"
        "drive" "files(id, name, mimeType, parents)"]).
Proof.
  exact (filter_propagates_server_error Demo.MIME_TYPES None
           Demo.from_json_keyfile_name Demo.discovery_build Demo.server_404
           Demo.documents [] []
           "mimeType contains 'application/vnd.google-apps.document'"
           Demo.drive (HttpError 404) eq_refl eq_refl eq_refl eq_refl).
Defined.

Lemma no_service_account_file_demo :
  get None Demo.from_json_keyfile_name Demo.discovery_build
    Demo.set_api_service Demo.server Demo.no_file_manager "doc-1" []
  = (Raise service_account_file_not_found, [])
  ∧ filter Demo.MIME_TYPES None Demo.from_json_keyfile_name
      Demo.discovery_build Demo.server Demo.no_file_manager [] []
    = (Raise service_account_file_not_found, []).
Proof.
  destruct (no_service_account_file Demo.MIME_TYPES None
              Demo.from_json_keyfile_name Demo.discovery_build
              Demo.set_api_service Demo.server Demo.no_file_manager
              eq_refl eq_refl "doc-1" []
              "mimeType contains 'application/vnd.google-apps.document'" [])
    as [Hget Hfilter].
  split; [exact Hget|exact (Hfilter eq_refl)].
Defined.

Lemma using_selects_the_key_file_demo :
  ∃ self',
    using_ Demo.isfile Demo.no_file_manager "key.json" = inr self'
    ∧ mgr_cls self' = ClsGoogleDriveDocumentManager
    ∧ file_cls_of self' = ClsGoogleDriveDocument
    ∧ _service_account_file (Some "env.json") self' = Some "key.json"
    ∧ _get_api_service (Some "env.json") Demo.from_json_keyfile_name
        Demo.discovery_build self'
      = Ok Demo.drive.
Proof.
  exact (proj1 (using_selects_the_key_file (Some "env.json")
                  Demo.from_json_keyfile_name Demo.discovery_build
                  Demo.isfile Demo.no_file_manager "key.json" eq_refl)
           eq_refl).
Defined.

Lemma factory_inverts_class_mime_type_demo :
  get_file_class Demo.MIME_TYPES
    (class_mime_type Demo.MIME_TYPES ClsGoogleDriveSpreadsheet)
  = ClsGoogleDriveSpreadsheet.
Proof.
  assert (mime_types_distinct Demo.MIME_TYPES) as Hdistinct
    by (repeat split; discriminate).
  exact (proj1 (factory_inverts_class_mime_type Demo.MIME_TYPES Hdistinct)
           ClsGoogleDriveSpreadsheet).
Defined.

Lemma Sheet_item_round_trip_demo :
  Sheet_from_item (λ d, Ok (Color_from_item d))
    (mkSheetItem (Some (Sheet_to_item Demo.painted_sheet)))
  = Ok (Sheet_init (Some 7) (Some 1) (Some "Data") (Some Demo.teal)
          (Some Demo.grid)).
Proof.
  apply (Sheet_item_round_trip (λ d, Ok (Color_from_item d))
           Demo.painted_sheet).
  intros c [= <-]. reflexivity.
Defined.

Lemma sheet_from_item_needs_spreadsheet_demo :
  Sheet_read Demo._sheets_api_service Demo.server
    (Sheet_init (Some 7) (Some 1) (Some "Data") None (Some Demo.grid))
    "A1:B2" []
  = (Raise spreadsheet_unknown, [])
  ∧ Sheet_read Demo._sheets_api_service Demo.server
      (assign_spreadsheet
         (Sheet_init (Some 7) (Some 1) (Some "Data") None (Some Demo.grid))
         Demo.book) "A1:B2"
    = GoogleDriveSpreadsheet_read Demo._sheets_api_service Demo.server
        Demo.book "Data!A1:B2".
Proof.
  destruct (sheet_from_item_needs_spreadsheet Demo._sheets_api_service
              Demo.server (λ d, Ok (Color_from_item d))
              (mkSheetItem (Some (Sheet_to_item Demo.full_sheet)))
              (Sheet_init (Some 7) (Some 1) (Some "Data") None
                 (Some Demo.grid)) eq_refl)
    as (_ & Hraise & Hassigned).
  split.
  - exact (proj1 (Hraise "A1:B2" [] "RAW" [])).
  - exact (proj1 (Hassigned Demo.book "A1:B2" [] "RAW")).
Defined.

Lemma Sheet_from_item_grid_properties_demo :
  Sheet_from_item (λ d, Ok (Color_from_item d))
    (mkSheetItem (Some Demo.bare_properties))
  = Ok (Sheet_init (Some 3) (Some 0) (Some "Notes") None None).
Proof.
  exact (Sheet_from_item_grid_properties (λ d, Ok (Color_from_item d))
           Demo.bare_properties (Some 3) (Some 0) (Some "Notes")
           eq_refl eq_refl eq_refl eq_refl).
Defined.

Lemma parents_and_contains_demo :
  ∃ b,
    GoogleDriveFolder_contains Demo._api_service Demo.folder_server
      Demo.archive Demo.report_file []
    = (Ok b, [SentFolderRequest (FilesGetFields Demo.drive "doc-1" "parents")])
    ∧ (b = true ↔ In "folder-9" ["root"; "folder-9"]).
Proof.
  exact (proj2 (proj1 (parents_and_contains Demo._api_service
                         Demo.folder_server Demo.archive Demo.report_file []
                         Demo.drive
                         (mkParentsBody (Some ["root"; "folder-9"]))
                         eq_refl eq_refl)
                  ["root"; "folder-9"] eq_refl)).
Defined.

Lemma children_are_dispatched_demo :
  ∃ files,
    children Demo.MIME_TYPES Demo._api_service Demo.folder_server
      Demo.archive []
    = (Ok files,
       [SentFolderRequest
          (FilesListQuery Demo.drive
             (dquote +:+ "folder-9" +:+ dquote +:+ " in parents"))])
    ∧ Forall2 (λ (it : item) f,
                 file_cls f = matching_class Demo.MIME_TYPES (it !! "mimeType")
                 ∧ it !! "id" = Some (file_id f)
                 ∧ file_name f = it !! "name"
                 ∧ file_mime_type f = it !! "mimeType")
        [Demo.report; Demo.picture] files.
Proof.
  assert (mime_types_distinct Demo.MIME_TYPES) as Hdistinct
    by (repeat split; discriminate).
  apply (proj1 (proj2 (children_are_dispatched Demo.MIME_TYPES
                         Demo._api_service Demo.folder_server Demo.archive []
                         Demo.drive
                         (mkFileList (Some [Demo.report; Demo.picture]))
                         Hdistinct eq_refl eq_refl)
                  [Demo.report; Demo.picture] eq_refl)).
  repeat constructor; eexists; reflexivity.
Defined.

Example children_demo_classes :
  (children Demo.MIME_TYPES Demo._api_service Demo.folder_server
     Demo.archive []).1
  = Ok [file_init ClsGoogleDriveDocument "doc-1" (Some "report")
          (Some "application/vnd.google-apps.document");
        file_init ClsGoogleDriveFile "img-7" None None].
Proof. reflexivity. Qed.

(** [get] and [filter] on the manager of spreadsheets. *)
Lemma spreadsheet_manager_has_no_files_demo :
  get None Demo.from_json_keyfile_name Demo.discovery_build
    Demo.set_api_service Demo.server Demo.spreadsheets "book-1" []
  = (Raise (AttributeError "'Resource' object has no attribute 'files'"), [])
  ∧ filter Demo.MIME_TYPES None Demo.from_json_keyfile_name
      Demo.discovery_build Demo.server Demo.spreadsheets [] []
    = (Raise (AttributeError "'Resource' object has no attribute 'files'"),
       []).
Proof.
  destruct (spreadsheet_manager_has_no_files Demo.MIME_TYPES None
              Demo.from_json_keyfile_name Demo.discovery_build
              Demo.set_api_service Demo.server Demo.spreadsheets
              Demo.sheets eq_refl eq_refl "book-1" []
              "mimeType contains 'application/vnd.google-apps.spreadsheet'" [])
    as [Hget Hfilter].
  split; [exact Hget|exact (Hfilter eq_refl)].
Defined.
